(** * Node lifecycle and resource records of dlrover

    A shallow embedding of [dlrover/python/common/node.py]: the classes
    [NodeResource], [NodeGroupResource] and [Node], together with the part of
    the Python runtime their methods rely on (text slicing, [strip], [split],
    [int], [float], true division, insertion-ordered dictionaries, object
    identity and [copy.deepcopy]).

    Conventions.
    - Text is [string]; a character is a code point below 256.
    - A Python [int] is a [Z]; a Python [float] is a binary64 number in the
      standard library's [spec_float] (precision 53, [emax] 1024).
    - A call that may raise returns a [pyres]; the exception classes are the
      constructors of [exn].
    - Objects with identity ([NodeResource], [Node]) live in a store indexed
      by locations; attributes that hold such objects hold locations. *)

From Stdlib Require Import ZArith Ascii String SpecFloat Lia.
From stdpp Require Import gmap strings list.

Local Open Scope string_scope.
Local Open Scope Z_scope.

(** ** Exceptions and results *)

Inductive exn : Set :=
  | ValueError
  | IndexError
  | AttributeError
  | OverflowError
  | ZeroDivisionError
  | KeyError.

Inductive pyres (A : Type) : Type :=
  | Ok (a : A)
  | Raise (e : exn).
Arguments Ok {A} a.
Arguments Raise {A} e.

Definition pybind {A B : Type} (r : pyres A) (k : A -> pyres B) : pyres B :=
  match r with
  | Ok a => k a
  | Raise e => Raise e
  end.

Notation "'do' x <- r ; k" := (pybind r (fun x => k))
  (at level 10, x name, r at level 100, k at level 200).

(** ** Text *)

Module Str.

Definition code (c : ascii) : Z := Z.of_N (N_of_ascii c).

Definition in_range (lo hi : Z) (c : ascii) : bool :=
  (lo <=? code c) && (code c <=? hi).

(** [str.isspace] on code points below 256: what [str.strip()] removes. *)
Definition is_space (c : ascii) : bool :=
  in_range 9 13 c || in_range 28 32 c || (code c =? 133) || (code c =? 160).

(** The narrower set that [int(...)] and [float(...)] skip around a
    literal. *)
Definition is_literal_space (c : ascii) : bool :=
  in_range 9 13 c || (code c =? 32) || (code c =? 133) || (code c =? 160).

Fixpoint lstrip (p : ascii -> bool) (s : string) : string :=
  match s with
  | String c s' => if p c then lstrip p s' else s
  | EmptyString => EmptyString
  end.

Fixpoint rstrip (p : ascii -> bool) (s : string) : string :=
  match s with
  | String c s' =>
      match rstrip p s' with
      | EmptyString => if p c then EmptyString else String c EmptyString
      | t => String c t
      end
  | EmptyString => EmptyString
  end.

(** [s.strip()] *)
Definition strip (s : string) : string := rstrip is_space (lstrip is_space s).

(** [s.split(sep)] for a one-character separator. *)
Fixpoint split (sep : ascii) (s : string) : list string :=
  match s with
  | EmptyString => [EmptyString]
  | String c s' =>
      if Ascii.eqb c sep then EmptyString :: split sep s'
      else match split sep s' with
           | t :: ts => String c t :: ts
           | [] => [String c EmptyString]
           end
  end.

Fixpoint drop (n : nat) (s : string) : string :=
  match n, s with
  | S n', String _ s' => drop n' s'
  | _, _ => s
  end.

Fixpoint take (n : nat) (s : string) : string :=
  match n, s with
  | S n', String c s' => String c (take n' s')
  | _, _ => EmptyString
  end.

(** Index normalisation of a slice bound: negative bounds count from the
    end, and every bound is clamped to [0 .. len]. *)
Definition clamp (len : Z) (i : Z) : Z :=
  if i <? 0 then Z.max (i + len) 0 else Z.min i len.

(** [s[lo:hi]]; an omitted bound is [None]. *)
Definition slice (s : string) (lo hi : option Z) : string :=
  let len := Z.of_nat (String.length s) in
  let a := match lo with Some i => clamp len i | None => 0 end in
  let b := match hi with Some j => clamp len j | None => len end in
  take (Z.to_nat (b - a)) (drop (Z.to_nat a) s).

(** [sub in s] *)
Fixpoint contains (sub s : string) : bool :=
  String.prefix sub s ||
  match s with
  | String _ s' => contains sub s'
  | EmptyString => false
  end.

(** [c in s] for one character. *)
Fixpoint has_char (c : ascii) (s : string) : bool :=
  match s with
  | String c' s' => Ascii.eqb c' c || has_char c s'
  | EmptyString => false
  end.

Definition lower (c : ascii) : ascii :=
  if in_range 65 90 c then ascii_of_N (N_of_ascii c + 32) else c.

Fixpoint lowercase (s : string) : string :=
  match s with
  | String c s' => String (lower c) (lowercase s')
  | EmptyString => EmptyString
  end.

End Str.

(** ** Numbers *)

Inductive pynum : Set :=
  | PyInt (z : Z)
  | PyFloat (f : spec_float).

Module Num.

(** binary64 *)
Definition prec : Z := 53.
Definition emax : Z := 1024.

Definition digit (c : ascii) : option Z :=
  if Str.in_range 48 57 c then Some (Str.code c - 48) else None.

(** The tail of a [digitpart]: digits, each optionally preceded by one
    underscore. Returns the accumulated value, the number of digits read
    and the unread text. *)
Fixpoint scan_more (acc : Z) (n : nat) (s : string) : Z * nat * string :=
  match s with
  | String c s' =>
      match digit c with
      | Some d => scan_more (acc * 10 + d) (S n) s'
      | None =>
          if Ascii.eqb c "_" then
            match s' with
            | String c' s'' =>
                match digit c' with
                | Some d => scan_more (acc * 10 + d) (S n) s''
                | None => (acc, n, s)
                end
            | EmptyString => (acc, n, s)
            end
          else (acc, n, s)
      end
  | EmptyString => (acc, n, s)
  end.

(** A [digitpart] must start with a digit. *)
Definition scan_digitpart (acc : Z) (s : string) : Z * nat * string :=
  match s with
  | String c s' =>
      match digit c with
      | Some d => scan_more (acc * 10 + d) 1 s'
      | None => (acc, O, s)
      end
  | EmptyString => (acc, O, s)
  end.

Definition scan_sign (s : string) : bool * string :=
  match s with
  | String c s' =>
      if Ascii.eqb c "-" then (true, s')
      else if Ascii.eqb c "+" then (false, s')
      else (false, s)
  | EmptyString => (false, s)
  end.

Definition literal_strip (s : string) : string :=
  Str.rstrip Str.is_literal_space (Str.lstrip Str.is_literal_space s).

(** [int(s)] for text [s], base 10. The interpreter's optional cap on the
    number of digits is not modelled. *)
Definition int_of_str (s : string) : pyres Z :=
  let '(neg, body) := scan_sign (literal_strip s) in
  let '(v, n, rest) := scan_digitpart 0 body in
  match n, rest with
  | S _, EmptyString => Ok (if neg then - v else v)
  | _, _ => Raise ValueError
  end.

(** The binary64 number nearest to [num / den] (ties to even), for
    [0 <= num] and [0 < den], with sign [neg]. *)
Definition float_of_ratio (neg : bool) (num den : Z) : spec_float :=
  if num =? 0 then S754_zero neg
  else
    let '(q, e, l) := SFdiv_core_binary prec emax num 0 den 0 in
    binary_round_aux prec emax neg q e l.

(** [m * 10 ^ e10], correctly rounded. *)
Definition float_of_decimal (neg : bool) (m e10 : Z) : spec_float :=
  float_of_ratio neg (m * 10 ^ Z.max e10 0) (10 ^ Z.max (- e10) 0).

(** What follows the digits of a float literal: nothing, or an exponent. *)
Definition scan_exponent (s : string) : option Z :=
  match s with
  | EmptyString => Some 0
  | String c s' =>
      if Ascii.eqb c "e" || Ascii.eqb c "E" then
        let '(neg, body) := scan_sign s' in
        let '(v, n, rest) := scan_digitpart 0 body in
        match n, rest with
        | S _, EmptyString => Some (if neg then - v else v)
        | _, _ => None
        end
      else None
  end.

(** [float(s)] for text [s]. *)
Definition float_of_str (s : string) : pyres spec_float :=
  let '(neg, body) := scan_sign (literal_strip s) in
  let w := Str.lowercase body in
  if String.eqb w "inf" || String.eqb w "infinity" then Ok (S754_infinity neg)
  else if String.eqb w "nan" then Ok S754_nan
  else
    let '(m1, n1, r1) := scan_digitpart 0 body in
    let '(m2, n2, r2) :=
      match r1 with
      | String c r => if Ascii.eqb c "." then scan_digitpart m1 r else (m1, O, r1)
      | EmptyString => (m1, O, r1)
      end in
    match (n1 + n2)%nat with
    | O => Raise ValueError
    | S _ =>
        match scan_exponent r2 with
        | Some e => Ok (float_of_decimal neg m2 (e - Z.of_nat n2))
        | None => Raise ValueError
        end
    end.

(** [a / b] on two ints. *)
Definition int_truediv (a b : Z) : pyres spec_float :=
  if b =? 0 then Raise ZeroDivisionError
  else
    match float_of_ratio (xorb (a <? 0) (b <? 0)) (Z.abs a) (Z.abs b) with
    | S754_infinity _ => Raise OverflowError
    | f => Ok f
    end.

(** [int(f)] for a float [f]: truncation towards zero. *)
Definition int_of_float (f : spec_float) : pyres Z :=
  match f with
  | S754_nan => Raise ValueError
  | S754_infinity _ => Raise OverflowError
  | S754_zero _ => Ok 0
  | S754_finite s m e =>
      Ok (cond_Zopp s (if 0 <=? e then Zpos m * 2 ^ e else Zpos m / 2 ^ (- e)))
  end.

(** Exact comparison of a float with an int. *)
Definition compare_float_int (f : spec_float) (z : Z) : option comparison :=
  match f with
  | S754_nan => None
  | S754_infinity s => Some (if s then Lt else Gt)
  | S754_zero _ => Some (0 ?= z)
  | S754_finite s m e =>
      Some (if 0 <=? e then cond_Zopp s (Zpos m * 2 ^ e) ?= z
            else cond_Zopp s (Zpos m) ?= z * 2 ^ (- e))
  end.

Definition compare (a b : pynum) : option comparison :=
  match a, b with
  | PyInt x, PyInt y => Some (x ?= y)
  | PyFloat f, PyFloat g => SFcompare f g
  | PyFloat f, PyInt y => compare_float_int f y
  | PyInt x, PyFloat g => option_map CompOpp (compare_float_int g x)
  end.

(** [a >= b] *)
Definition ge (a b : pynum) : bool :=
  match compare a b with
  | Some Gt | Some Eq => true
  | _ => false
  end.

(** [a > b] *)
Definition gt (a b : pynum) : bool :=
  match compare a b with
  | Some Gt => true
  | _ => false
  end.

(** [a < b] *)
Definition lt (a b : pynum) : bool :=
  match compare a b with
  | Some Lt => true
  | _ => false
  end.




End Num.

(** ** Dictionaries

    A Python [dict] keeps its keys in insertion order; assigning to a key
    that is already present replaces the value and keeps the position. *)

Module Dict.
Section Dict.
Context {K V : Type} `{EqDecision K}.

Fixpoint setitem (k : K) (v : V) (d : list (K * V)) : list (K * V) :=
  match d with
  | [] => [(k, v)]
  | (k', v') :: d' =>
      if decide (k' = k) then (k', v) :: d' else (k', v') :: setitem k v d'
  end.

Fixpoint get (k : K) (d : list (K * V)) : option V :=
  match d with
  | [] => None
  | (k', v') :: d' => if decide (k' = k) then Some v' else get k d'
  end.

(** [d.get(k, dflt)] *)
Definition get_default (k : K) (dflt : V) (d : list (K * V)) : V :=
  match get k d with
  | Some v => v
  | None => dflt
  end.

Definition keys (d : list (K * V)) : list K := map fst d.
End Dict.
End Dict.

(** ** class NodeResource *)

Module NodeResource.
Record t : Set := mk {
  cpu : pynum;
  memory : pynum;
  gpu_type : option string;
  gpu_num : Z;
  image : string;
  priority : string
}.

(** Attribute assignment [self.cpu = v], [self.memory = v]. *)
Definition set_cpu (v : pynum) (r : t) : t :=
  mk v (memory r) (gpu_type r) (gpu_num r) (image r) (priority r).
Definition set_memory (v : pynum) (r : t) : t :=
  mk (cpu r) v (gpu_type r) (gpu_num r) (image r) (priority r).
End NodeResource.

(** [NodeResource.__init__(cpu, memory, gpu_type=None, gpu_num=0)] *)
Definition NodeResource_init (cpu memory : pynum) (gpu_type : option string)
    (gpu_num : Z) : NodeResource.t :=
  {| NodeResource.cpu := cpu;
     NodeResource.memory := memory;
     NodeResource.gpu_type := gpu_type;
     NodeResource.gpu_num := gpu_num;
     NodeResource.image := EmptyString;
     NodeResource.priority := EmptyString |}.

(** A value stored in the dictionary built by [to_resource_dict]. *)
Inductive wire_value : Set :=
  | WNum (n : pynum)
  | WStr (s : string).

(** What a caller may hand to [resource_str_to_node_resource]: [None], a
    text, or a mapping such as the one [to_resource_dict] returns. *)
Inductive resource_arg : Set :=
  | ArgNone
  | ArgStr (s : string)
  | ArgDict (d : list (option string * wire_value)).

Section ToResourceDict.
(** [str(x)] for a float [x] belongs to the interpreter. *)
Variable float_repr : spec_float -> string.


End ToResourceDict.

(** [seq[i]] for a list, [IndexError] out of range. *)
Definition index {A : Type} (l : list A) (i : nat) : pyres A :=
  match l !! i with
  | Some x => Ok x
  | None => Raise IndexError
  end.

(** The first loop of [resource_str_to_node_resource]:
    [resource[value.split("=")[0]] = value.split("=")[1]] for each token;
    the right-hand side is evaluated first. *)
Fixpoint fill_resource (tokens : list string) (resource : list (string * string))
    : pyres (list (string * string)) :=
  match tokens with
  | [] => Ok resource
  | value :: rest =>
      do v <- index (Str.split "=" value) 1;
      do k <- index (Str.split "=" value) 0;
      fill_resource rest (Dict.setitem k v resource)
  end.

(** The second loop: every key containing ["nvidia.com"] overwrites
    [gpu_type] and [gpu_num]. *)
Fixpoint scan_gpu (resource items : list (string * string))
    (gpu : option string * Z) : pyres (option string * Z) :=
  match items with
  | [] => Ok gpu
  | (key, _) :: rest =>
      if Str.contains "nvidia.com" key then
        do text <- match Dict.get key resource with
                   | Some v => Ok v
                   | None => Raise KeyError
                   end;
        do n <- Num.int_of_str text;
        scan_gpu resource rest (Some key, n)
      else scan_gpu resource rest gpu
  end.

(** The tokens of a resource text, and the key the first loop reads from a
    token. *)
Definition tokens_of (s : string) : list string := Str.split "," (Str.strip s).

Definition token_key (value : string) : string :=
  match Str.split "=" value with
  | k :: _ => k
  | [] => EmptyString
  end.

Definition token_value (value : string) : option string :=
  Str.split "=" value !! 1%nat.

Definition resource_of_text (s : string) : pyres NodeResource.t :=
  do resource <- fill_resource (tokens_of s) [];
  do memory <- Num.float_of_str
                 (Str.slice (Dict.get_default "memory" "0Mi" resource)
                    (Some 0) (Some (-2)));
  do cpu <- Num.float_of_str (Dict.get_default "cpu" "0" resource);
  do gpu <- scan_gpu resource resource (None, 0);
  Ok (NodeResource_init (PyFloat cpu) (PyFloat memory) (fst gpu) (snd gpu)).

(** [NodeResource.resource_str_to_node_resource(resource_str)].
    [not resource_str] holds for [None], the empty text and the empty
    mapping; a non-empty mapping has no [strip]. *)
Definition resource_str_to_node_resource (resource_str : resource_arg)
    : pyres NodeResource.t :=
  match resource_str with
  | ArgNone | ArgStr EmptyString | ArgDict [] =>
      Ok (NodeResource_init (PyInt 0) (PyInt 0) None 0)
  | ArgDict (_ :: _) => Raise AttributeError
  | ArgStr s => resource_of_text s
  end.

(** [NodeResource.convert_memory_to_mb(memory)] *)
Definition convert_memory_to_mb (memory : string) : pyres Z :=
  let unit := Str.slice memory (Some (-2)) None in
  do value <- Num.int_of_str (Str.slice memory (Some 0) (Some (-2)));
  if String.eqb unit "Gi" then Ok (value * 1024)
  else if String.eqb unit "Ki" then
    do q <- Num.int_truediv value 1024; Num.int_of_float q
  else Ok value.

(** ** Objects and the store *)

(** Modelled from the spec: the members of [NodeStatus], declared in
    [dlrover/python/common/constants.py]; the spec's data model lists the
    status values INITIAL, PENDING, RUNNING, SUCCEEDED, FAILED, DELETED. *)
Module NodeStatus.
Inductive t : Set := INITIAL | PENDING | RUNNING | SUCCEEDED | FAILED | DELETED.
End NodeStatus.

Definition loc : Set := positive.

(** A [datetime] value, as a count of microseconds. *)
Definition datetime : Set := Z.

Module NodeGroupResource.
Record t : Set := mk {
  count : Z;
  node_resource : loc;
  priority : option string
}.
End NodeGroupResource.

Module Node.
Record t : Set := mk {
  type : string;
  id : Z;
  name : option string;
  status : NodeStatus.t;
  start_time : option Z;
  task_index : Z;
  relaunch_count : Z;
  critical : bool;
  max_relaunch_count : Z;
  relaunchable : bool;
  service_addr : option string;
  create_time : datetime;
  finish_time : datetime;
  is_recovered_oom : bool;
  is_released : bool;
  exit_reason : option string;
  config_resource : loc;
  used_resource : loc
}.

(** Attribute assignment [self.<field> = v]. *)
Definition set_id (v : Z) (n : t) : t :=
  mk (type n) v (name n) (status n) (start_time n) (task_index n)
     (relaunch_count n) (critical n) (max_relaunch_count n) (relaunchable n)
     (service_addr n) (create_time n) (finish_time n) (is_recovered_oom n)
     (is_released n) (exit_reason n) (config_resource n) (used_resource n).
Definition set_name (v : option string) (n : t) : t :=
  mk (type n) (id n) v (status n) (start_time n) (task_index n)
     (relaunch_count n) (critical n) (max_relaunch_count n) (relaunchable n)
     (service_addr n) (create_time n) (finish_time n) (is_recovered_oom n)
     (is_released n) (exit_reason n) (config_resource n) (used_resource n).
Definition set_status (v : NodeStatus.t) (n : t) : t :=
  mk (type n) (id n) (name n) v (start_time n) (task_index n)
     (relaunch_count n) (critical n) (max_relaunch_count n) (relaunchable n)
     (service_addr n) (create_time n) (finish_time n) (is_recovered_oom n)
     (is_released n) (exit_reason n) (config_resource n) (used_resource n).
Definition set_start_time (v : option Z) (n : t) : t :=
  mk (type n) (id n) (name n) (status n) v (task_index n)
     (relaunch_count n) (critical n) (max_relaunch_count n) (relaunchable n)
     (service_addr n) (create_time n) (finish_time n) (is_recovered_oom n)
     (is_released n) (exit_reason n) (config_resource n) (used_resource n).
Definition set_relaunch_count (v : Z) (n : t) : t :=
  mk (type n) (id n) (name n) (status n) (start_time n) (task_index n)
     v (critical n) (max_relaunch_count n) (relaunchable n)
     (service_addr n) (create_time n) (finish_time n) (is_recovered_oom n)
     (is_released n) (exit_reason n) (config_resource n) (used_resource n).
Definition set_relaunchable (v : bool) (n : t) : t :=
  mk (type n) (id n) (name n) (status n) (start_time n) (task_index n)
     (relaunch_count n) (critical n) (max_relaunch_count n) v
     (service_addr n) (create_time n) (finish_time n) (is_recovered_oom n)
     (is_released n) (exit_reason n) (config_resource n) (used_resource n).
Definition set_create_time (v : datetime) (n : t) : t :=
  mk (type n) (id n) (name n) (status n) (start_time n) (task_index n)
     (relaunch_count n) (critical n) (max_relaunch_count n) (relaunchable n)
     (service_addr n) v (finish_time n) (is_recovered_oom n)
     (is_released n) (exit_reason n) (config_resource n) (used_resource n).
Definition set_is_released (v : bool) (n : t) : t :=
  mk (type n) (id n) (name n) (status n) (start_time n) (task_index n)
     (relaunch_count n) (critical n) (max_relaunch_count n) (relaunchable n)
     (service_addr n) (create_time n) (finish_time n) (is_recovered_oom n)
     v (exit_reason n) (config_resource n) (used_resource n).
Definition set_exit_reason (v : option string) (n : t) : t :=
  mk (type n) (id n) (name n) (status n) (start_time n) (task_index n)
     (relaunch_count n) (critical n) (max_relaunch_count n) (relaunchable n)
     (service_addr n) (create_time n) (finish_time n) (is_recovered_oom n)
     (is_released n) v (config_resource n) (used_resource n).
Definition set_resources (c u : loc) (n : t) : t :=
  mk (type n) (id n) (name n) (status n) (start_time n) (task_index n)
     (relaunch_count n) (critical n) (max_relaunch_count n) (relaunchable n)
     (service_addr n) (create_time n) (finish_time n) (is_recovered_oom n)
     (is_released n) (exit_reason n) c u.
End Node.

Inductive object : Set :=
  | ResourceObj (r : NodeResource.t)
  | GroupObj (g : NodeGroupResource.t)
  | NodeObj (n : Node.t).

(** A method call reads and updates the store and either returns or
    raises. *)
Definition action (A : Type) : Type :=
  gmap loc object -> pyres (A * gmap loc object).

Definition ret {A : Type} (a : A) : action A := fun h => Ok (a, h).

Definition bind {A B : Type} (m : action A) (k : A -> action B) : action B :=
  fun h =>
    match m h with
    | Ok (a, h') => k a h'
    | Raise e => Raise e
    end.

Notation "'let!' x := m 'in' k" := (bind m (fun x => k))
  (at level 10, x name, m at level 100, k at level 200).

(** Creating an object: it gets a location no existing object has. *)
Definition alloc (o : object) : action loc :=
  fun h => let l := fresh (dom h) in Ok (l, <[l := o]> h).

(** Reading the attributes of the object at [l]; an object of another class
    does not have them. *)
Definition get_resource (l : loc) : action NodeResource.t :=
  fun h =>
    match h !! l with
    | Some (ResourceObj r) => Ok (r, h)
    | _ => Raise AttributeError
    end.

Definition get_node (l : loc) : action Node.t :=
  fun h =>
    match h !! l with
    | Some (NodeObj n) => Ok (n, h)
    | _ => Raise AttributeError
    end.

Definition get_group (l : loc) : action NodeGroupResource.t :=
  fun h =>
    match h !! l with
    | Some (GroupObj g) => Ok (g, h)
    | _ => Raise AttributeError
    end.

Definition put (l : loc) (o : object) : action unit :=
  fun h => Ok (tt, <[l := o]> h).

(** [r.<field> = v] on the resource object at [l]. *)
Definition modify_resource (l : loc) (f : NodeResource.t -> NodeResource.t)
    : action unit :=
  let! r := get_resource l in put l (ResourceObj (f r)).

(** ** class NodeGroupResource *)

(** [NodeGroupResource.__init__(count, node_resource, priority=None)]: the
    group keeps a reference to the caller's [node_resource]. *)
Definition NodeGroupResource_init (count : Z) (node_resource : loc)
    (priority : option string) : action loc :=
  alloc (GroupObj (NodeGroupResource.mk count node_resource priority)).

(** [NodeGroupResource.update(count, cpu, memory)] *)
Definition NodeGroupResource_update (self : loc) (count : Z) (cpu memory : pynum)
    : action unit :=
  let! g := get_group self in
  let! _ := put self (GroupObj (NodeGroupResource.mk count
                         (NodeGroupResource.node_resource g)
                         (NodeGroupResource.priority g))) in
  let! _ := modify_resource (NodeGroupResource.node_resource g)
              (NodeResource.set_cpu cpu) in
  modify_resource (NodeGroupResource.node_resource g) (NodeResource.set_memory memory).

(** [NodeGroupResource.new_empty()] *)
Definition new_empty : action loc :=
  let! r := alloc (ResourceObj (NodeResource_init (PyInt 0) (PyInt 0) None 0)) in
  NodeGroupResource_init 0 r None.

(** ** class Node *)

Definition float_zero : pynum := PyFloat (S754_zero false).

(** [Node.__init__]. Omitted arguments take the defaults [name=None],
    [status=NodeStatus.INITIAL], [start_time=None], [task_index=None],
    [relaunch_count=0], [critical=False], [max_relaunch_count=0],
    [relaunchable=True], [service_addr=None]. [now] is the value read from
    [datetime.now()]. *)
Definition Node_init (now : datetime) (node_type : string) (node_id : Z)
    (config_resource : loc) (name : option string) (status : NodeStatus.t)
    (start_time : option Z) (task_index : option Z) (relaunch_count : Z)
    (critical : bool) (max_relaunch_count : Z) (relaunchable : bool)
    (service_addr : option string) : action loc :=
  let! used := alloc (ResourceObj (NodeResource_init float_zero float_zero None 0)) in
  alloc (NodeObj
    {| Node.type := node_type;
       Node.id := node_id;
       Node.name := name;
       Node.status := status;
       Node.start_time := start_time;
       Node.task_index := match task_index with Some i => i | None => node_id end;
       Node.relaunch_count := relaunch_count;
       Node.critical := critical;
       Node.max_relaunch_count := max_relaunch_count;
       Node.relaunchable := relaunchable;
       Node.service_addr := service_addr;
       Node.create_time := now;
       Node.finish_time := now;
       Node.is_recovered_oom := false;
       Node.is_released := false;
       Node.exit_reason := None;
       Node.config_resource := config_resource;
       Node.used_resource := used |}).

(** [self.<field> = v] on the node at [self]. *)
Definition modify_node (self : loc) (f : Node.t -> Node.t) : action unit :=
  let! n := get_node self in put self (NodeObj (f n)).

Definition inc_relaunch_count (self : loc) : action unit :=
  modify_node self (fun n => Node.set_relaunch_count (Node.relaunch_count n + 1) n).

Definition update_info (self : loc) (name : option string)
    (start_time : option Z) (create_time : option datetime) : action unit :=
  let! _ := match name with
            | Some v => modify_node self (Node.set_name (Some v))
            | None => ret tt
            end in
  let! _ := match start_time with
            | Some v => modify_node self (Node.set_start_time (Some v))
            | None => ret tt
            end in
  match create_time with
  | Some v => modify_node self (Node.set_create_time v)
  | None => ret tt
  end.

Definition update_status (self : loc) (status : option NodeStatus.t) : action unit :=
  match status with
  | Some v => modify_node self (Node.set_status v)
  | None => ret tt
  end.

Definition update_resource_usage (self : loc) (cpu memory : pynum) : action unit :=
  let! n := get_node self in
  let! _ := modify_resource (Node.used_resource n) (NodeResource.set_cpu cpu) in
  let! n := get_node self in
  modify_resource (Node.used_resource n) (NodeResource.set_memory memory).

(** [copy.deepcopy(self)] for a node: a new node object whose resource
    attributes are new copies; one object reached twice is copied once. *)
Definition deepcopy_node (self : loc) : action loc :=
  let! n := get_node self in
  let! c := get_resource (Node.config_resource n) in
  let! c' := alloc (ResourceObj c) in
  let! u' := (if decide (Node.used_resource n = Node.config_resource n)
              then ret c'
              else let! u := get_resource (Node.used_resource n) in
                   alloc (ResourceObj u)) in
  alloc (NodeObj (Node.set_resources c' u' n)).

Definition get_relaunch_node_info (self : loc) (new_id : Z) : action loc :=
  let! new_node := deepcopy_node self in
  let! _ := modify_node new_node (Node.set_id new_id) in
  let! _ := modify_node new_node (Node.set_name None) in
  let! _ := modify_node new_node (Node.set_status NodeStatus.INITIAL) in
  let! _ := modify_node new_node (Node.set_start_time None) in
  let! _ := modify_node new_node (Node.set_is_released false) in
  let! _ := modify_node new_node (Node.set_relaunchable true) in
  ret new_node.

Definition set_exit_reason (self : loc) (reason : option string) : action unit :=
  modify_node self (Node.set_exit_reason reason).

Section Unrecoverable.
(** [NodeExitReason.FATAL_ERROR] and [NodeResourceLimit.MAX_MEMORY] are
    constants of [dlrover/python/common/constants.py]. *)
Variable FATAL_ERROR : string.
Variable MAX_MEMORY : pynum.

(** [or] evaluates its operands from the left and stops at the first true
    one. *)
Definition is_unrecoverable_failure (self : loc) : action bool :=
  let! n := get_node self in
  if Node.max_relaunch_count n <=? Node.relaunch_count n then ret true
  else if bool_decide (Node.exit_reason n = Some FATAL_ERROR) then ret true
  else
    let! u := get_resource (Node.used_resource n) in
    if Num.ge (NodeResource.memory u) MAX_MEMORY then ret true else ret false.
End Unrecoverable.

(** The calls a client can make on an existing node, for statements that
    range over all of them. *)
Inductive node_call : Set :=
  | Call_inc_relaunch_count
  | Call_update_info (name : option string) (start_time : option Z)
      (create_time : option datetime)
  | Call_update_status (status : option NodeStatus.t)
  | Call_update_resource_usage (cpu memory : pynum)
  | Call_get_relaunch_node_info (new_id : Z)
  | Call_is_unrecoverable_failure
  | Call_set_exit_reason (reason : option string).

Definition run_call (FATAL_ERROR : string) (MAX_MEMORY : pynum)
    (c : node_call) (self : loc) : action unit :=
  match c with
  | Call_inc_relaunch_count => inc_relaunch_count self
  | Call_update_info name start_time create_time =>
      update_info self name start_time create_time
  | Call_update_status status => update_status self status
  | Call_update_resource_usage cpu memory => update_resource_usage self cpu memory
  | Call_get_relaunch_node_info new_id =>
      let! _ := get_relaunch_node_info self new_id in ret tt
  | Call_is_unrecoverable_failure =>
      let! _ := is_unrecoverable_failure FATAL_ERROR MAX_MEMORY self in ret tt
  | Call_set_exit_reason reason => set_exit_reason self reason
  end.

(** A store [h'] keeps a store [h] when every object of [h] is still there,
    unchanged. *)
Definition keeps (h h' : gmap loc object) : Prop :=
  forall l o, h !! l = Some o -> h' !! l = Some o.

(** ** A sample store

    A worker whose relaunch budget is zero, already released after a
    failure, with its two resource objects. *)

Definition sample_config : NodeResource.t :=
  NodeResource_init (PyInt 4) (PyInt 8192) None 0.

Definition sample_used : NodeResource.t :=
  NodeResource_init float_zero float_zero None 0.

Definition sample_node : Node.t :=
  {| Node.type := "worker";
     Node.id := 0;
     Node.name := Some "worker-0";
     Node.status := NodeStatus.FAILED;
     Node.start_time := None;
     Node.task_index := 0;
     Node.relaunch_count := 0;
     Node.critical := false;
     Node.max_relaunch_count := 0;
     Node.relaunchable := true;
     Node.service_addr := None;
     Node.create_time := 0;
     Node.finish_time := 0;
     Node.is_recovered_oom := false;
     Node.is_released := true;
     Node.exit_reason := None;
     Node.config_resource := 1%positive;
     Node.used_resource := 2%positive |}.

Definition sample_store : gmap loc object :=
  <[3%positive := NodeObj sample_node]>
    (<[2%positive := ResourceObj sample_used]>
       (<[1%positive := ResourceObj sample_config]> ∅)).

(** [not (f < 0)] for a float [f]. *)
Definition not_below_zero (f : spec_float) : Prop :=
  Num.lt (PyFloat f) (PyInt 0) = false.

(** ** Sequences of calls and their results on a node *)

(** [inc_relaunch_count()] called [k] times on the same node. *)
Fixpoint inc_relaunch_count_times (k : nat) (self : loc) : action unit :=
  match k with
  | O => ret tt
  | S k' => let! _ := inc_relaunch_count self in inc_relaunch_count_times k' self
  end.

(** The two calls that overwrite what [is_unrecoverable_failure] reads
    besides the relaunch count. *)
Definition rewrites_failure_inputs (c : node_call) : bool :=
  match c with
  | Call_update_resource_usage _ _ | Call_set_exit_reason _ => true
  | _ => false
  end.

(** The attributes of the node that [get_relaunch_node_info new_id] builds
    from a node [n] whose copied resources are at [c] and [u]. *)
Definition relaunch_copy (new_id : Z) (c u : loc) (n : Node.t) : Node.t :=
  Node.set_relaunchable true
    (Node.set_is_released false
       (Node.set_start_time None
          (Node.set_status NodeStatus.INITIAL
             (Node.set_name None
                (Node.set_id new_id (Node.set_resources c u n)))))).

(** The attributes of a node [n] after [update_info(name, start_time,
    create_time)]. *)
Definition update_info_result (name : option string) (start_time : option Z)
    (create_time : option datetime) (n : Node.t) : Node.t :=
  let n1 := match name with Some v => Node.set_name (Some v) n | None => n end in
  let n2 := match start_time with
            | Some v => Node.set_start_time (Some v) n1
            | None => n1
            end in
  match create_time with
  | Some v => Node.set_create_time v n2
  | None => n2
  end.

(** The verdict of [is_unrecoverable_failure] as a function of what it
    reads. *)
Definition failure_verdict (FATAL_ERROR : string) (MAX_MEMORY : pynum)
    (relaunch_count max_relaunch_count : Z) (exit_reason : option string)
    (memory : pynum) : bool :=
  (max_relaunch_count <=? relaunch_count)
  || bool_decide (exit_reason = Some FATAL_ERROR)
  || Num.ge memory MAX_MEMORY.

(** ** A sample group

    A group of two workers on the configured resource of the sample store. *)

Definition sample_group : NodeGroupResource.t :=
  NodeGroupResource.mk 2 1%positive None.

Definition sample_group_store : gmap loc object :=
  <[4%positive := GroupObj sample_group]> sample_store.

(** [update_status(status)] called once for each element of [statuses], in
    order, on the same node. *)
Fixpoint update_status_all (statuses : list (option NodeStatus.t)) (self : loc)
    : action unit :=
  match statuses with
  | [] => ret tt
  | status :: rest =>
      let! _ := update_status self status in update_status_all rest self
  end.

(** The last status of [statuses] that is not [None], [current] when there
    is none. *)
Definition last_given (statuses : list (option NodeStatus.t))
    (current : NodeStatus.t) : NodeStatus.t :=
  fold_left (fun acc status => match status with Some v => v | None => acc end)
    statuses current.
(** * Properties *)

(** ** The store *)

Lemma fresh_unused (h : gmap loc object) : h !! fresh (dom h) = None.
Proof. apply not_elem_of_dom, is_fresh. Qed.

Lemma fresh_differs (h : gmap loc object) (l : loc) (o : object) :
  h !! l = Some o -> l <> fresh (dom h).
Proof. intros Hl ->. rewrite fresh_unused in Hl. discriminate. Qed.

Lemma get_node_at (h : gmap loc object) l n :
  h !! l = Some (NodeObj n) -> get_node l h = Ok (n, h).
Proof. intros H. unfold get_node. now rewrite H. Qed.

Lemma get_resource_at (h : gmap loc object) l r :
  h !! l = Some (ResourceObj r) -> get_resource l h = Ok (r, h).
Proof. intros H. unfold get_resource. now rewrite H. Qed.

Lemma modify_node_at (h : gmap loc object) l n f :
  h !! l = Some (NodeObj n) ->
  modify_node l f h = Ok (tt, <[l := NodeObj (f n)]> h).
Proof. intros H. unfold modify_node, bind. now rewrite (get_node_at h l n H). Qed.

Lemma bind_ok {A B} (m : action A) (k : A -> action B) h a h' :
  m h = Ok (a, h') -> bind m k h = k a h'.
Proof. intros H. unfold bind. now rewrite H. Qed.

Section UnrecoverableFacts.
Variable FATAL_ERROR : string.
Variable MAX_MEMORY : pynum.

(** C1. [is_unrecoverable_failure] returns [True] exactly when the relaunch
    budget is used up, or the exit reason is the fatal one, or the observed
    memory has reached the ceiling; when [relaunch_count] equals
    [max_relaunch_count] it returns [True] whatever the other attributes
    are. The call changes nothing in the store. *)
Theorem is_unrecoverable_failure_iff (h : gmap loc object) (self : loc) (n : Node.t) :
  h !! self = Some (NodeObj n) ->
  (Node.relaunch_count n = Node.max_relaunch_count n ->
     is_unrecoverable_failure FATAL_ERROR MAX_MEMORY self h = Ok (true, h)) /\
  (forall u, h !! Node.used_resource n = Some (ResourceObj u) ->
     exists b, is_unrecoverable_failure FATAL_ERROR MAX_MEMORY self h = Ok (b, h) /\
       (b = true <->
          Node.relaunch_count n >= Node.max_relaunch_count n \/
          Node.exit_reason n = Some FATAL_ERROR \/
          Num.ge (NodeResource.memory u) MAX_MEMORY = true)).
Proof.
  intros Hself. unfold is_unrecoverable_failure.
  rewrite (bind_ok _ _ _ _ _ (get_node_at h self n Hself)).
  split.
  - intros Heq. rewrite Heq, Z.leb_refl. reflexivity.
  - intros u Hu.
    destruct (Z.leb_spec (Node.max_relaunch_count n) (Node.relaunch_count n)) as [Hle | Hlt].
    { exists true. split; [reflexivity | ]. split; [ | reflexivity]. intros _. left. lia. }
    case_bool_decide as Hexit.
    { exists true. split; [reflexivity | ]. split; [ | reflexivity]. intros _. right. now left. }
    rewrite (bind_ok _ _ _ _ _ (get_resource_at h _ u Hu)).
    destruct (Num.ge (NodeResource.memory u) MAX_MEMORY) eqn:Hge.
    + exists true. split; [reflexivity | ]. split; [ | reflexivity]. intros _. right. now right.
    + exists false. split; [reflexivity | ]. split; [discriminate | ].
      intros [H | [H | H]]; [lia | contradiction | discriminate].
Qed.
End UnrecoverableFacts.
Lemma ge_zero_below_positive (m : pynum) :
  Num.gt m (PyInt 0) = true -> Num.ge float_zero m = false.
Proof.
  unfold Num.gt, Num.ge, float_zero.
  destruct m as [z | f]; simpl.
  - destruct z; simpl; intros H; try discriminate; reflexivity.
  - destruct f as [s | s | | s m e]; simpl; try discriminate.
    + destruct s; [discriminate | reflexivity].
    + destruct s; [ | reflexivity].
      intros H. exfalso.
      assert (Hp : 0 <= 2 ^ e) by apply Z.pow_nonneg, Z.lt_le_incl, Z.lt_0_2.
      destruct (0 <=? e); simpl in H.
      * destruct (Z.compare_spec (- (Z.pos m * 2 ^ e)) 0); try discriminate. nia.
      * discriminate.
Qed.

Section ConstructorFacts.
Variable FATAL_ERROR : string.
Variable MAX_MEMORY : pynum.

(** C9. A node just built by [Node.__init__] has a used resource of
    [0.0] cpu and [0.0] memory, is not released, has no exit reason, is not
    marked as recovered from OOM and has equal creation and finish times,
    whatever the arguments; and when [MAX_MEMORY] is positive,
    [is_unrecoverable_failure] on it is decided by
    [relaunch_count >= max_relaunch_count] alone. *)
Theorem Node_init_state (h : gmap loc object) (now : datetime)
    (node_type : string) (node_id : Z) (config_resource : loc)
    (name : option string) (status : NodeStatus.t) (start_time task_index : option Z)
    (relaunch_count : Z) (critical : bool) (max_relaunch_count : Z)
    (relaunchable : bool) (service_addr : option string) :
  exists self h' n u,
    Node_init now node_type node_id config_resource name status start_time
      task_index relaunch_count critical max_relaunch_count relaunchable
      service_addr h = Ok (self, h') /\
    h' !! self = Some (NodeObj n) /\
    h' !! Node.used_resource n = Some (ResourceObj u) /\
    NodeResource.cpu u = PyFloat (S754_zero false) /\
    NodeResource.memory u = PyFloat (S754_zero false) /\
    Node.is_released n = false /\
    Node.exit_reason n = None /\
    Node.is_recovered_oom n = false /\
    Node.create_time n = Node.finish_time n /\
    Node.relaunch_count n = relaunch_count /\
    Node.max_relaunch_count n = max_relaunch_count /\
    (Num.gt MAX_MEMORY (PyInt 0) = true ->
     is_unrecoverable_failure FATAL_ERROR MAX_MEMORY self h' =
       Ok (max_relaunch_count <=? relaunch_count, h')).
Proof.
  unfold Node_init, bind, alloc.
  set (used := fresh (dom h)).
  set (h1 := <[used := _]> h).
  set (self := fresh (dom h1)).
  eexists self, _, _, _.
  split; [reflexivity | ].
  assert (Hne : used <> self).
  { apply (fresh_differs h1 used _ (lookup_insert_eq _ _ _)). }
  split; [apply lookup_insert_eq | ].
  split; [simpl; rewrite lookup_insert_ne by congruence; apply lookup_insert_eq | ].
  repeat (split; [reflexivity | ]).
  intros Hpos.
  unfold is_unrecoverable_failure.
  erewrite bind_ok by (apply get_node_at, lookup_insert_eq). simpl.
  destruct (max_relaunch_count <=? relaunch_count); [reflexivity | ].
  erewrite bind_ok
    by (apply get_resource_at; rewrite lookup_insert_ne by congruence; apply lookup_insert_eq).
  simpl. fold float_zero. now rewrite (ge_zero_below_positive _ Hpos).
Qed.
End ConstructorFacts.

(** ** Relaunch *)

(** [copy.deepcopy] of a node allocates: the copy and its resources are
    new objects, and nothing that existed is touched. *)
Lemma deepcopy_node_spec (h : gmap loc object) (self : loc)
    (n : Node.t) (c u : NodeResource.t) :
  h !! self = Some (NodeObj n) ->
  h !! Node.config_resource n = Some (ResourceObj c) ->
  h !! Node.used_resource n = Some (ResourceObj u) ->
  exists l' h' c' u',
    deepcopy_node self h = Ok (l', h') /\
    h' !! l' = Some (NodeObj (Node.set_resources c' u' n)) /\
    h !! l' = None /\
    h !! c' = None /\
    h' !! c' = Some (ResourceObj c) /\
    h !! u' = None /\
    h' !! u' = Some (ResourceObj u) /\
    (forall l o, h !! l = Some o -> h' !! l = Some o).
Proof.
  intros Hself Hc Hu.
  unfold deepcopy_node.
  rewrite (bind_ok _ _ _ _ _ (get_node_at h self n Hself)).
  rewrite (bind_ok _ _ _ _ _ (get_resource_at h _ c Hc)).
  unfold bind at 1. unfold alloc at 1.
  set (c' := fresh (dom h)).
  set (h1 := <[c' := ResourceObj c]> h).
  assert (Hc'h : h !! c' = None) by apply fresh_unused.
  assert (Hext1 : forall l o, h !! l = Some o -> h1 !! l = Some o).
  { intros l o Hl. unfold h1. rewrite lookup_insert_ne; [exact Hl | ].
    intros ->. congruence. }
  assert (Hcopy : exists u' h2,
    (if decide (Node.used_resource n = Node.config_resource n)
     then ret c'
     else let! r := get_resource (Node.used_resource n) in alloc (ResourceObj r)) h1
      = Ok (u', h2) /\
    h2 !! c' = Some (ResourceObj c) /\
    h !! u' = None /\
    h2 !! u' = Some (ResourceObj u) /\
    (forall l o, h !! l = Some o -> h2 !! l = Some o)).
  { destruct (decide (Node.used_resource n = Node.config_resource n)) as [Heq | Hneq].
    - exists c', h1. split; [reflexivity | ].
      split; [apply lookup_insert_eq | ].
      split; [exact Hc'h | ].
      split; [ | exact Hext1].
      rewrite Heq in Hu. assert (u = c) by congruence. subst u.
      apply lookup_insert_eq.
    - rewrite (bind_ok _ _ _ _ _ (get_resource_at h1 _ u (Hext1 _ _ Hu))).
      unfold alloc. eexists _, _. split; [reflexivity | ].
      assert (Hfr : forall l o, h1 !! l = Some o -> l <> fresh (dom h1))
        by (intros l o; apply fresh_differs).
      split.
      { rewrite lookup_insert_ne; [apply lookup_insert_eq | ].
        intros E. apply (Hfr c' (ResourceObj c)); [apply lookup_insert_eq | now symmetry]. }
      split.
      { destruct (h !! fresh (dom h1)) as [o | ] eqn:E; [ | reflexivity].
        exfalso. apply (Hfr _ o (Hext1 _ _ E)). reflexivity. }
      split; [apply lookup_insert_eq | ].
      intros l o Hl. rewrite lookup_insert_ne; [now apply Hext1 | ].
      intros E. apply (Hfr l o); [now apply Hext1 | now symmetry]. }
  destruct Hcopy as (u' & h2 & Hrun & Hc'2 & Hu'h & Hu'2 & Hext2).
  unfold bind at 1. rewrite Hrun.
  unfold alloc.
  set (l' := fresh (dom h2)).
  assert (Hl'2 : h2 !! l' = None) by apply fresh_unused.
  exists l', (<[l' := NodeObj (Node.set_resources c' u' n)]> h2), c', u'.
  split; [reflexivity | ].
  split; [apply lookup_insert_eq | ].
  split.
  { destruct (h !! l') as [o | ] eqn:E; [ | reflexivity].
    apply Hext2 in E. congruence. }
  split; [exact Hc'h | ].
  split.
  { rewrite lookup_insert_ne; [exact Hc'2 | ]. intros E. congruence. }
  split; [exact Hu'h | ].
  split.
  { rewrite lookup_insert_ne; [exact Hu'2 | ]. intros E. congruence. }
  intros l o Hl. rewrite lookup_insert_ne; [now apply Hext2 | ].
  intros ->. apply Hext2 in Hl. congruence.
Qed.

Ltac modify_fresh_node :=
  erewrite bind_ok by (apply modify_node_at; first [eassumption | apply lookup_insert_eq]);
  try rewrite insert_insert_eq.

(** C2. [get_relaunch_node_info new_id] returns a new node object with
    [id = new_id], [name = None], [status = INITIAL], [start_time = None],
    [is_released = False], [relaunchable = True]; its type, task index,
    criticality, relaunch count and maximal relaunch count are the
    original's, its configured resource is a new object with the original's
    contents, and every object that existed before the call, the original
    node included, is unchanged. *)
Theorem get_relaunch_node_info_spec (h : gmap loc object) (self : loc)
    (n : Node.t) (c u : NodeResource.t) (new_id : Z) :
  h !! self = Some (NodeObj n) ->
  h !! Node.config_resource n = Some (ResourceObj c) ->
  h !! Node.used_resource n = Some (ResourceObj u) ->
  exists new_node h' n',
    get_relaunch_node_info self new_id h = Ok (new_node, h') /\
    h !! new_node = None /\
    h' !! new_node = Some (NodeObj n') /\
    Node.id n' = new_id /\
    Node.name n' = None /\
    Node.status n' = NodeStatus.INITIAL /\
    Node.start_time n' = None /\
    Node.is_released n' = false /\
    Node.relaunchable n' = true /\
    Node.type n' = Node.type n /\
    Node.task_index n' = Node.task_index n /\
    Node.critical n' = Node.critical n /\
    Node.relaunch_count n' = Node.relaunch_count n /\
    Node.max_relaunch_count n' = Node.max_relaunch_count n /\
    h !! Node.config_resource n' = None /\
    h' !! Node.config_resource n' = Some (ResourceObj c) /\
    h' !! self = Some (NodeObj n) /\
    (forall l o, h !! l = Some o -> h' !! l = Some o).
Proof.
  intros Hself Hc Hu.
  destruct (deepcopy_node_spec h self n c u Hself Hc Hu)
    as (l' & h2 & c' & u' & Hrun & Hl'2 & Hl'h & Hc'h & Hc'2 & _ & _ & Hext).
  unfold get_relaunch_node_info.
  rewrite (bind_ok _ _ _ _ _ Hrun).
  do 6 modify_fresh_node.
  unfold ret.
  eexists l', _, _. split; [reflexivity | ].
  split; [exact Hl'h | ].
  split; [apply lookup_insert_eq | ].
  simpl. repeat (split; [reflexivity | ]).
  split; [exact Hc'h | ].
  assert (Hframe : forall l o, h !! l = Some o ->
            (<[l' := NodeObj
                 (Node.set_relaunchable true
                   (Node.set_is_released false
                     (Node.set_start_time None
                       (Node.set_status NodeStatus.INITIAL
                         (Node.set_name None
                           (Node.set_id new_id
                             (Node.set_resources c' u' n)))))))]> h2) !! l = Some o).
  { intros l o Hl. rewrite lookup_insert_ne; [now apply Hext | ].
    intros ->. congruence. }
  split.
  { rewrite lookup_insert_ne; [exact Hc'2 | ]. intros E. congruence. }
  split; [now apply Hframe | exact Hframe].
Qed.

(** ** Which calls change the status *)

Lemma bind_inv {A B} (m : action A) (k : A -> action B) h b h' :
  bind m k h = Ok (b, h') ->
  exists a h1, m h = Ok (a, h1) /\ k a h1 = Ok (b, h').
Proof.
  unfold bind. destruct (m h) as [[a h1] | e]; [ | discriminate].
  intros H. now exists a, h1.
Qed.

Lemma get_node_inv (h h' : gmap loc object) l n :
  get_node l h = Ok (n, h') -> h' = h /\ h !! l = Some (NodeObj n).
Proof.
  unfold get_node. destruct (h !! l) as [[r | g | n0] | ]; try discriminate.
  intros [= -> ->]. now split.
Qed.

Lemma get_resource_inv (h h' : gmap loc object) l r :
  get_resource l h = Ok (r, h') -> h' = h /\ h !! l = Some (ResourceObj r).
Proof.
  unfold get_resource. destruct (h !! l) as [[r0 | g | n0] | ]; try discriminate.
  intros [= -> ->]. now split.
Qed.

Lemma alloc_inv (h h' : gmap loc object) o l :
  alloc o h = Ok (l, h') -> h !! l = None /\ h' = <[l := o]> h.
Proof. unfold alloc. intros [= <- <-]. split; [apply fresh_unused | reflexivity]. Qed.

Lemma modify_node_inv (h h' : gmap loc object) l f u :
  modify_node l f h = Ok (u, h') ->
  exists n, h !! l = Some (NodeObj n) /\ h' = <[l := NodeObj (f n)]> h.
Proof.
  unfold modify_node. intros H.
  apply bind_inv in H as (n & h1 & Hget & Hput).
  apply get_node_inv in Hget as [-> Hl].
  unfold put in Hput. injection Hput as _ <-. now exists n.
Qed.


Lemma keeps_trans h1 h2 h3 : keeps h1 h2 -> keeps h2 h3 -> keeps h1 h3.
Proof. intros H12 H23 l o H. now apply H23, H12. Qed.

Lemma keeps_insert_new (h : gmap loc object) l o :
  h !! l = None -> keeps h (<[l := o]> h).
Proof.
  intros Hl l0 o0 H0. rewrite lookup_insert_ne; [exact H0 | ].
  intros ->. congruence.
Qed.

Lemma deepcopy_node_keeps (h h' : gmap loc object) self l' :
  deepcopy_node self h = Ok (l', h') ->
  h !! l' = None /\ is_Some (h' !! l') /\ keeps h h'.
Proof.
  unfold deepcopy_node. intros H.
  apply bind_inv in H as (n & h0 & Hn & H). apply get_node_inv in Hn as [-> Hn].
  apply bind_inv in H as (c & h0 & Hc & H). apply get_resource_inv in Hc as [-> Hc].
  apply bind_inv in H as (c' & h1 & Hc' & H). apply alloc_inv in Hc' as [Hc' ->].
  apply bind_inv in H as (u' & h2 & Hu' & H).
  assert (K2 : keeps h h2).
  { destruct (decide (Node.used_resource n = Node.config_resource n)).
    - injection Hu' as _ <-. now apply keeps_insert_new.
    - apply bind_inv in Hu' as (u & h0 & Hu & Hu').
      apply get_resource_inv in Hu as [-> Hu].
      apply alloc_inv in Hu' as [Hu' ->].
      eapply keeps_trans; [apply keeps_insert_new, Hc' | now apply keeps_insert_new]. }
  apply alloc_inv in H as [Hl' ->].
  split.
  { destruct (h !! l') as [o | ] eqn:E; [ | reflexivity]. apply K2 in E. congruence. }
  split; [rewrite lookup_insert_eq; eauto | ].
  eapply keeps_trans; [exact K2 | now apply keeps_insert_new].
Qed.

Lemma get_relaunch_node_info_keeps (h h' : gmap loc object) self new_id l' :
  get_relaunch_node_info self new_id h = Ok (l', h') -> keeps h h'.
Proof.
  unfold get_relaunch_node_info. intros H.
  apply bind_inv in H as (l0 & h0 & Hcopy & H).
  apply deepcopy_node_keeps in Hcopy as (Hnew & _ & K).
  do 6 (let Hm := fresh "Hm" in
        apply bind_inv in H as ([] & ? & Hm & H);
        apply modify_node_inv in Hm as (? & ? & ->)).
  unfold ret in H. injection H as <- <-.
  intros l o Hl.
  assert (l <> l0) by (intros ->; congruence).
  rewrite !lookup_insert_ne by congruence. now apply K.
Qed.

Section CallFacts.
Variable FATAL_ERROR : string.
Variable MAX_MEMORY : pynum.

End CallFacts.

(** ** Text slicing *)

Lemma str_length_app (s t : string) :
  String.length (s +:+ t) = (String.length s + String.length t)%nat.
Proof. induction s as [ | c s IH]; simpl; [reflexivity | now rewrite IH]. Qed.

Lemma str_take_app (s t : string) : Str.take (String.length s) (s +:+ t) = s.
Proof. induction s as [ | c s IH]; simpl; [now destruct t | now rewrite IH]. Qed.



Lemma clamp_zero (len : Z) : 0 <= len -> Str.clamp len 0 = 0.
Proof. intros H. unfold Str.clamp. change (0 <? 0) with false. cbv iota. lia. Qed.

Lemma clamp_minus_two (len : Z) : 2 <= len -> Str.clamp len (-2) = len - 2.
Proof. intros H. unfold Str.clamp. change (-2 <? 0) with true. cbv iota. lia. Qed.

Lemma str_drop_zero (s : string) : Str.drop 0 s = s.
Proof. now destruct s. Qed.

(** [(s + t)[0:-2] = s] and [(s + t)[-2:] = t] when [t] has two characters. *)
Lemma slice_prefix (s t : string) :
  String.length t = 2%nat -> Str.slice (s +:+ t) (Some 0) (Some (-2)) = s.
Proof.
  intros Ht. unfold Str.slice. rewrite str_length_app, Ht.
  rewrite clamp_zero, clamp_minus_two by lia.
  change (Z.to_nat 0) with 0%nat. rewrite str_drop_zero.
  replace (Z.to_nat _) with (String.length s) by lia.
  apply str_take_app.
Qed.


(** ** Decimal numerals *)











(** ** Division by 1024 in binary64 *)






(** ** convert_memory_to_mb *)





(** ** The properties at the sample store *)

Lemma is_unrecoverable_failure_iff_witness :
  sample_store !! 3%positive = Some (NodeObj sample_node) /\
  Node.relaunch_count sample_node = Node.max_relaunch_count sample_node /\
  is_unrecoverable_failure "Error" (PyInt 65536) 3%positive sample_store
    = Ok (true, sample_store).
Proof.
  assert (H : sample_store !! 3%positive = Some (NodeObj sample_node)) by reflexivity.
  split; [exact H | ]. split; [reflexivity | ].
  exact (proj1 (is_unrecoverable_failure_iff "Error" (PyInt 65536)
                  sample_store 3%positive sample_node H) eq_refl).
Defined.

Lemma Node_init_state_witness :
  Num.gt (PyInt 65536) (PyInt 0) = true /\
  exists self h',
    Node_init 0 "worker" 7 1%positive None NodeStatus.INITIAL None None 0 false 3 true
      None sample_store = Ok (self, h') /\
    is_unrecoverable_failure "Error" (PyInt 65536) self h' = Ok (false, h').
Proof.
  split; [reflexivity | ].
  destruct (Node_init_state "Error" (PyInt 65536) sample_store 0 "worker" 7 1%positive
              None NodeStatus.INITIAL None None 0 false 3 true None)
    as (self & h' & n & u & Hrun & _ & _ & _ & _ & _ & _ & _ & _ & _ & _ & Hq).
  exists self, h'. split; [exact Hrun | exact (Hq eq_refl)].
Defined.

Lemma get_relaunch_node_info_spec_witness :
  sample_store !! 3%positive = Some (NodeObj sample_node) /\
  sample_store !! Node.config_resource sample_node = Some (ResourceObj sample_config) /\
  sample_store !! Node.used_resource sample_node = Some (ResourceObj sample_used) /\
  exists new_node h' n',
    get_relaunch_node_info 3%positive 8 sample_store = Ok (new_node, h') /\
    h' !! new_node = Some (NodeObj n') /\
    Node.id n' = 8 /\
    Node.status n' = NodeStatus.INITIAL /\
    Node.is_released n' = false /\
    h' !! 3%positive = Some (NodeObj sample_node).
Proof.
  assert (H1 : sample_store !! 3%positive = Some (NodeObj sample_node)) by reflexivity.
  assert (H2 : sample_store !! Node.config_resource sample_node
               = Some (ResourceObj sample_config)) by reflexivity.
  assert (H3 : sample_store !! Node.used_resource sample_node
               = Some (ResourceObj sample_used)) by reflexivity.
  repeat (split; [assumption | ]).
  destruct (get_relaunch_node_info_spec sample_store 3%positive sample_node
              sample_config sample_used 8 H1 H2 H3)
    as (l & h' & n' & Hrun & _ & Hn' & Hid & _ & Hst & _ & Hrel & _ & _ & _ & _ & _ & _
        & _ & _ & Hself & _).
  exists l, h', n'. repeat (split; [assumption | ]). exact Hself.
Defined.



(** ** The two loops of resource_str_to_node_resource *)

Lemma pybind_inv {A B} (r : pyres A) (k : A -> pyres B) (b : B) :
  pybind r k = Ok b -> exists a, r = Ok a /\ k a = Ok b.
Proof. destruct r as [a | e]; [ | discriminate]. intros H. now exists a. Qed.

Lemma split_cons (sep : ascii) (s : string) :
  exists t ts, Str.split sep s = t :: ts.
Proof.
  destruct s as [ | c s]; simpl; [now eexists _, _ | ].
  destruct (Ascii.eqb c sep); [now eexists _, _ | ].
  destruct (Str.split sep s); now eexists _, _.
Qed.

Lemma fill_resource_step (value : string) (rest : list string)
    (acc : list (string * string)) :
  fill_resource (value :: rest) acc =
  match token_value value with
  | Some v => fill_resource rest (Dict.setitem (token_key value) v acc)
  | None => Raise IndexError
  end.
Proof.
  unfold token_value, token_key. cbn [fill_resource]. unfold index.
  destruct (split_cons "=" value) as (t & ts & ->).
  destruct ts as [ | v ts]; reflexivity.
Qed.

(** What [resource_of_text] returns, step by step. *)
Lemma resource_of_text_inv (s : string) (r : NodeResource.t) :
  resource_of_text s = Ok r ->
  exists resource memory cpu gpu,
    fill_resource (tokens_of s) [] = Ok resource /\
    Num.float_of_str (Str.slice (Dict.get_default "memory" "0Mi" resource)
                        (Some 0) (Some (-2))) = Ok memory /\
    Num.float_of_str (Dict.get_default "cpu" "0" resource) = Ok cpu /\
    scan_gpu resource resource (None, 0) = Ok gpu /\
    r = NodeResource_init (PyFloat cpu) (PyFloat memory) (fst gpu) (snd gpu).
Proof.
  unfold resource_of_text. intros H.
  apply pybind_inv in H as (resource & Hfill & H).
  apply pybind_inv in H as (memory & Hmem & H).
  apply pybind_inv in H as (cpu & Hcpu & H).
  apply pybind_inv in H as (gpu & Hgpu & H).
  injection H as <-. now exists resource, memory, cpu, gpu.
Qed.

Lemma resource_str_text (s : string) :
  s <> EmptyString ->
  resource_str_to_node_resource (ArgStr s) = resource_of_text s.
Proof. destruct s; [congruence | reflexivity]. Qed.

Lemma setitem_keys (k k' : string) (v : string) (d : list (string * string)) :
  k ∈ Dict.keys (Dict.setitem k' v d) -> k = k' \/ k ∈ Dict.keys d.
Proof.
  unfold Dict.keys. induction d as [ | [k0 v0] d IH]; simpl.
  - intros H. apply list_elem_of_singleton in H. now left.
  - destruct (decide (k0 = k')) as [-> | Hne]; simpl.
    + intros H. now right.
    + intros H. apply elem_of_cons in H as [-> | H].
      * right. apply list_elem_of_here.
      * destruct (IH H) as [-> | Hin]; [now left | right]. now apply list_elem_of_further.
Qed.

Lemma setitem_fresh (k v : string) (d : list (string * string)) :
  k ∉ Dict.keys d -> Dict.setitem k v d = (d ++ [(k, v)])%list.
Proof.
  unfold Dict.keys. induction d as [ | [k0 v0] d IH]; simpl; [reflexivity | ].
  intros Hk. destruct (decide (k0 = k)) as [-> | Hne].
  - exfalso. apply Hk. apply list_elem_of_here.
  - rewrite IH; [reflexivity | ]. intros Hin. apply Hk. now apply list_elem_of_further.
Qed.

Lemma fill_resource_keys (tokens : list string) :
  forall (acc res : list (string * string)) (k : string),
    fill_resource tokens acc = Ok res ->
    k ∈ Dict.keys res ->
    k ∈ Dict.keys acc \/ k ∈ map token_key tokens.
Proof.
  induction tokens as [ | value rest IH]; intros acc res k Hfill Hk.
  - injection Hfill as <-. now left.
  - rewrite fill_resource_step in Hfill.
    destruct (token_value value) as [v | ]; [ | discriminate].
    destruct (IH _ _ k Hfill Hk) as [Hacc | Hrest].
    + apply setitem_keys in Hacc as [-> | Hacc]; [right; apply list_elem_of_here | now left].
    + right. simpl. now apply list_elem_of_further.
Qed.

Lemma scan_gpu_app (resource l1 l2 : list (string * string)) :
  forall gpu,
    scan_gpu resource (l1 ++ l2)%list gpu =
    (do g <- scan_gpu resource l1 gpu; scan_gpu resource l2 g).
Proof.
  induction l1 as [ | [key v] l1 IH]; intros gpu; simpl; [reflexivity | ].
  destruct (Str.contains "nvidia.com" key); [ | apply IH].
  destruct (Dict.get key resource) as [text | ]; simpl; [ | reflexivity].
  destruct (Num.int_of_str text) as [n | e]; simpl; [apply IH | reflexivity].
Qed.

Lemma scan_gpu_no_match (resource items : list (string * string)) :
  forall gpu,
    Forall (fun kv => Str.contains "nvidia.com" kv.1 = false) items ->
    scan_gpu resource items gpu = Ok gpu.
Proof.
  induction items as [ | [key v] items IH]; intros gpu Hall; simpl; [reflexivity | ].
  apply Forall_cons in Hall as [Hkey Hall]. simpl in Hkey. rewrite Hkey.
  now apply IH.
Qed.

Lemma get_distinct (k v : string) (l1 l2 : list (string * string)) :
  k ∉ Dict.keys l1 -> Dict.get k (l1 ++ (k, v) :: l2)%list = Some v.
Proof.
  unfold Dict.keys. induction l1 as [ | [k0 v0] l1 IH]; simpl; intros Hk.
  - now rewrite decide_True.
  - rewrite decide_False.
    + apply IH. intros Hin. apply Hk. now apply list_elem_of_further.
    + intros ->. apply Hk. apply list_elem_of_here.
Qed.

Lemma fill_resource_app (l1 l2 : list string) :
  forall acc,
    fill_resource (l1 ++ l2)%list acc =
    (do d <- fill_resource l1 acc; fill_resource l2 d).
Proof.
  induction l1 as [ | value l1 IH]; intros acc; [reflexivity | ].
  rewrite <- app_comm_cons, !fill_resource_step.
  destruct (token_value value); [apply IH | reflexivity].
Qed.

Lemma setitem_same_keys (k v : string) (d : list (string * string)) :
  k ∈ Dict.keys d -> Dict.keys (Dict.setitem k v d) = Dict.keys d.
Proof.
  unfold Dict.keys. induction d as [ | [k0 v0] d IH]; simpl; intros Hin.
  - now apply elem_of_nil in Hin.
  - destruct (decide (k0 = k)) as [-> | Hne]; [reflexivity | ]. simpl. f_equal.
    apply IH. apply elem_of_cons in Hin as [-> | Hin]; [congruence | exact Hin].
Qed.

Lemma setitem_app (k v : string) (l1 l2 : list (string * string)) :
  Dict.setitem k v (l1 ++ l2)%list =
  if decide (k ∈ Dict.keys l1) then (Dict.setitem k v l1 ++ l2)%list
  else (l1 ++ Dict.setitem k v l2)%list.
Proof.
  unfold Dict.keys. induction l1 as [ | [k0 v0] l1 IH].
  - destruct (decide (k ∈ map fst [])) as [Hin | _]; [ | reflexivity].
    now apply elem_of_nil in Hin.
  - cbn [Dict.setitem app map fst].
    destruct (decide (k0 = k)) as [-> | Hne].
    + destruct (decide (k ∈ k :: map fst l1)) as [_ | Hout]; [reflexivity | ].
      exfalso. apply Hout, list_elem_of_here.
    + rewrite IH. destruct (decide (k ∈ map fst l1)) as [Hin | Hout].
      * destruct (decide (k ∈ k0 :: map fst l1)) as [_ | Hout]; [reflexivity | ].
        exfalso. now apply Hout, list_elem_of_further.
      * destruct (decide (k ∈ k0 :: map fst l1)) as [Hin | _]; [ | reflexivity].
        apply elem_of_cons in Hin as [-> | Hin]; [congruence | contradiction].
Qed.

(** Tokens whose keys are no accelerator keys leave the entry of an
    accelerator key [k] where it is, with its value, and put no accelerator
    key behind it. *)
Lemma fill_resource_behind (k v : string) (tokens : list string) :
  Str.contains "nvidia.com" k = true ->
  Forall (fun value => Str.contains "nvidia.com" (token_key value) = false) tokens ->
  forall (d1 d2 res : list (string * string)),
    Forall (fun kv => Str.contains "nvidia.com" kv.1 = false) d2 ->
    fill_resource tokens (d1 ++ (k, v) :: d2)%list = Ok res ->
    exists d1' d2',
      res = (d1' ++ (k, v) :: d2')%list /\
      Dict.keys d1' = Dict.keys d1 /\
      Forall (fun kv => Str.contains "nvidia.com" kv.1 = false) d2'.
Proof.
  intros Hk. induction 1 as [ | value tokens Hvalue _ IH]; intros d1 d2 res Hd2 Hfill.
  - injection Hfill as <-. now exists d1, d2.
  - rewrite fill_resource_step in Hfill.
    destruct (token_value value) as [text | ]; [ | discriminate].
    rewrite setitem_app in Hfill.
    destruct (decide (token_key value ∈ Dict.keys d1)) as [Hin | Hout].
    + destruct (IH _ _ _ Hd2 Hfill) as (d1' & d2' & -> & Hkeys & Hd2').
      exists d1', d2'. split; [reflexivity | ]. split; [ | exact Hd2'].
      now rewrite Hkeys, setitem_same_keys.
    + cbn [Dict.setitem] in Hfill.
      rewrite decide_False in Hfill by (intros ->; congruence).
      apply IH in Hfill; [exact Hfill | ].
      apply Forall_forall. intros [k0 v0] Hkv. simpl.
      assert (Hk0 : k0 ∈ Dict.keys (Dict.setitem (token_key value) text d2)).
      { unfold Dict.keys. apply list_elem_of_fmap. now exists (k0, v0). }
      apply setitem_keys in Hk0 as [-> | Hk0]; [exact Hvalue | ].
      unfold Dict.keys in Hk0. apply list_elem_of_fmap in Hk0 as ([k1 v1] & -> & Hin1).
      rewrite Forall_forall in Hd2. now apply (Hd2 (k1, v1)).
Qed.

(** C10 (as amended). A key is an accelerator identifier only when it
    contains ["nvidia.com"]: when no key of the text contains it, the result
    has [gpu_type = None] and [gpu_num = 0]; and the last token whose key
    contains it gives both [gpu_type] (its key) and [gpu_num] (its value read
    by [int]), provided that key does not occur in an earlier token. *)
Theorem accelerator_from_last_key (s : string) (r : NodeResource.t) :
  resource_str_to_node_resource (ArgStr s) = Ok r ->
  (Forall (fun value => Str.contains "nvidia.com" (token_key value) = false)
     (tokens_of s) ->
   NodeResource.gpu_type r = None /\ NodeResource.gpu_num r = 0) /\
  (forall (before : list string) (value : string) (after : list string),
     tokens_of s = (before ++ value :: after)%list ->
     Str.contains "nvidia.com" (token_key value) = true ->
     Forall (fun value' => Str.contains "nvidia.com" (token_key value') = false) after ->
     token_key value ∉ map token_key before ->
     NodeResource.gpu_type r = Some (token_key value) /\
     exists text,
       token_value value = Some text /\
       Num.int_of_str text = Ok (NodeResource.gpu_num r)).
Proof.
  intros Hparse.
  destruct (decide (s = EmptyString)) as [-> | Hs].
  { injection Hparse as <-. split; [now split | ].
    intros before value after Htok Hkey _ _. exfalso.
    change (tokens_of EmptyString) with [EmptyString] in Htok.
    destruct before as [ | b before].
    - injection Htok as <- _. discriminate Hkey.
    - injection Htok as _ Htok. now destruct before. }
  rewrite resource_str_text in Hparse by exact Hs.
  apply resource_of_text_inv in Hparse
    as (resource & memory & cpu & gpu & Hfill & _ & _ & Hgpu & ->).
  simpl. split.
  - intros Hnone.
    rewrite scan_gpu_no_match in Hgpu.
    + injection Hgpu as <-. now split.
    + apply Forall_forall. intros [k v] Hkv. simpl.
      assert (Hk : k ∈ Dict.keys resource).
      { unfold Dict.keys. apply list_elem_of_fmap. now exists (k, v). }
      destruct (fill_resource_keys _ _ _ k Hfill Hk) as [Hin | Hin].
      * now apply elem_of_nil in Hin.
      * apply list_elem_of_fmap in Hin as (value & -> & Hvalue).
        rewrite Forall_forall in Hnone. now apply Hnone.
  - intros before value after Htok Hkey Hafter Hfirst.
    rewrite Htok, fill_resource_app in Hfill.
    apply pybind_inv in Hfill as (d0 & Hbefore & Hfill).
    rewrite fill_resource_step in Hfill.
    destruct (token_value value) as [text | ] eqn:Hv; [ | discriminate].
    assert (Hfresh : token_key value ∉ Dict.keys d0).
    { intros Hin. destruct (fill_resource_keys _ _ _ _ Hbefore Hin) as [H | H].
      - now apply elem_of_nil in H.
      - contradiction. }
    rewrite setitem_fresh in Hfill by exact Hfresh.
    destruct (fill_resource_behind _ _ _ Hkey Hafter d0 [] resource
                (List.Forall_nil _) Hfill) as (d1 & d2 & -> & Hkeys & Hd2).
    assert (Hget : Dict.get (token_key value)
                     (d1 ++ (token_key value, text) :: d2)%list = Some text).
    { apply get_distinct. now rewrite Hkeys. }
    rewrite scan_gpu_app in Hgpu.
    apply pybind_inv in Hgpu as (g & _ & Hgpu).
    cbn [scan_gpu] in Hgpu. rewrite Hkey, Hget in Hgpu.
    apply pybind_inv in Hgpu as (text' & [= <-] & Hgpu).
    apply pybind_inv in Hgpu as (n & Hint & Hgpu).
    rewrite scan_gpu_no_match in Hgpu by exact Hd2.
    injection Hgpu as <-. simpl. split; [reflexivity | now exists text].
Qed.

Lemma accelerator_from_last_key_witness :
  resource_str_to_node_resource (ArgStr "cpu=5,memory=100Mi,cpu=6,nvidia.com/gpu=2,x=1")
    = Ok (NodeResource_init
            (PyFloat (S754_finite false 6755399441055744 (-50)))
            (PyFloat (S754_finite false 7036874417766400 (-46)))
            (Some "nvidia.com/gpu") 2) /\
  (token_key "nvidia.com/gpu=2" ∉ map token_key ["cpu=5"; "memory=100Mi"; "cpu=6"]) /\
  Some "nvidia.com/gpu" = Some (token_key "nvidia.com/gpu=2") /\
  exists text,
    token_value "nvidia.com/gpu=2" = Some text /\
    Num.int_of_str text = Ok 2.
Proof.
  assert (Hparse :
    resource_str_to_node_resource (ArgStr "cpu=5,memory=100Mi,cpu=6,nvidia.com/gpu=2,x=1")
    = Ok (NodeResource_init
            (PyFloat (S754_finite false 6755399441055744 (-50)))
            (PyFloat (S754_finite false 7036874417766400 (-46)))
            (Some "nvidia.com/gpu") 2)) by (vm_compute; reflexivity).
  assert (Hfirst : token_key "nvidia.com/gpu=2"
                   ∉ map token_key ["cpu=5"; "memory=100Mi"; "cpu=6"]).
  { apply (bool_decide_unpack _). vm_compute. reflexivity. }
  assert (Hafter : Forall (fun value' => Str.contains "nvidia.com" (token_key value') = false)
                     ["x=1"]).
  { constructor; [reflexivity | constructor]. }
  split; [exact Hparse | ]. split; [exact Hfirst | ].
  exact (proj2 (accelerator_from_last_key _ _ Hparse)
           ["cpu=5"; "memory=100Mi"; "cpu=6"] "nvidia.com/gpu=2" ["x=1"]
           eq_refl eq_refl Hafter Hfirst).
Defined.

(** C10, the claim as stated fails: a key given twice keeps the place of its
    first occurrence in the dictionary. In the text below the last token whose
    key contains ["nvidia.com"] is ["nvidia.com/a=3"], but the result has
    [gpu_type = "nvidia.com/b"] and [gpu_num = 2]. *)
Lemma repeated_accelerator_key :
  tokens_of "nvidia.com/a=1,nvidia.com/b=2,nvidia.com/a=3"
    = ["nvidia.com/a=1"; "nvidia.com/b=2"; "nvidia.com/a=3"] /\
  token_key "nvidia.com/a=3" = "nvidia.com/a" /\
  token_value "nvidia.com/a=3" = Some "3" /\
  exists r,
    resource_str_to_node_resource
      (ArgStr "nvidia.com/a=1,nvidia.com/b=2,nvidia.com/a=3") = Ok r /\
    NodeResource.gpu_type r = Some "nvidia.com/b" /\
    NodeResource.gpu_num r = 2.
Proof.
  repeat (split; [reflexivity | ]).
  eexists. split; [vm_compute; reflexivity | ]. split; reflexivity.
Qed.

(** ** Texts without a given character *)

Section HasChar.
Variable c : ascii.

Lemma has_char_lstrip (p : ascii -> bool) (s : string) :
  Str.has_char c s = false -> Str.has_char c (Str.lstrip p s) = false.
Proof.
  induction s as [ | a s IH]; simpl; [reflexivity | ].
  intros H. apply orb_false_iff in H as [Ha Hs].
  destruct (p a); [now apply IH | ]. simpl. now rewrite Ha, Hs.
Qed.

Lemma has_char_rstrip (p : ascii -> bool) (s : string) :
  Str.has_char c s = false -> Str.has_char c (Str.rstrip p s) = false.
Proof.
  induction s as [ | a s IH]; simpl; [reflexivity | ].
  intros H. apply orb_false_iff in H as [Ha Hs].
  specialize (IH Hs).
  destruct (Str.rstrip p s) as [ | b t].
  - destruct (p a); [reflexivity | ]. simpl. now rewrite Ha.
  - cbn [Str.has_char]. rewrite Ha. exact IH.
Qed.

Lemma has_char_take (n : nat) :
  forall s, Str.has_char c s = false -> Str.has_char c (Str.take n s) = false.
Proof.
  induction n as [ | n IH]; intros [ | a s]; simpl; try reflexivity.
  intros H. apply orb_false_iff in H as [Ha Hs]. rewrite Ha. now apply IH.
Qed.

Lemma has_char_drop (n : nat) :
  forall s, Str.has_char c s = false -> Str.has_char c (Str.drop n s) = false.
Proof.
  induction n as [ | n IH]; intros [ | a s]; simpl; try reflexivity; try (intros H; exact H).
  intros H. apply orb_false_iff in H as [Ha Hs]. now apply IH.
Qed.

Lemma has_char_slice (s : string) (lo hi : option Z) :
  Str.has_char c s = false -> Str.has_char c (Str.slice s lo hi) = false.
Proof. intros H. unfold Str.slice. now apply has_char_take, has_char_drop. Qed.

Lemma has_char_split (sep : ascii) (s : string) :
  Str.has_char c s = false ->
  Forall (fun t => Str.has_char c t = false) (Str.split sep s).
Proof.
  induction s as [ | a s IH]; simpl.
  - intros _. now constructor.
  - intros H. apply orb_false_iff in H as [Ha Hs]. specialize (IH Hs).
    destruct (Ascii.eqb a sep); [now constructor | ].
    destruct (Str.split sep s) as [ | t ts].
    + constructor; [simpl; now rewrite Ha | constructor].
    + apply Forall_cons in IH as [Ht Hts].
      constructor; [simpl; now rewrite Ha | exact Hts].
Qed.

Lemma has_char_setitem (k v : string) (d : list (string * string)) :
  Str.has_char c v = false ->
  Forall (fun kv => Str.has_char c kv.2 = false) d ->
  Forall (fun kv => Str.has_char c kv.2 = false) (Dict.setitem k v d).
Proof.
  intros Hv. induction 1 as [ | [k0 v0] d H0 Hd IH]; simpl.
  - now repeat constructor.
  - destruct (decide (k0 = k)); constructor; auto.
Qed.

Lemma has_char_fill_resource (tokens : list string) :
  forall acc res,
    Forall (fun t => Str.has_char c t = false) tokens ->
    Forall (fun kv => Str.has_char c kv.2 = false) acc ->
    fill_resource tokens acc = Ok res ->
    Forall (fun kv => Str.has_char c kv.2 = false) res.
Proof.
  induction tokens as [ | value rest IH]; intros acc res Htok Hacc Hfill.
  - now injection Hfill as <-.
  - rewrite fill_resource_step in Hfill.
    destruct (token_value value) as [v | ] eqn:Hv; [ | discriminate].
    apply Forall_cons in Htok as [Hvalue Hrest].
    apply (IH _ _ Hrest) in Hfill; [exact Hfill | ].
    apply has_char_setitem; [ | exact Hacc].
    unfold token_value in Hv.
    pose proof (has_char_split "=" value Hvalue) as Hparts.
    rewrite Forall_forall in Hparts. apply Hparts.
    apply list_elem_of_lookup. now exists 1%nat.
Qed.

Lemma has_char_get_default (k dflt : string) (d : list (string * string)) :
  Str.has_char c dflt = false ->
  Forall (fun kv => Str.has_char c kv.2 = false) d ->
  Str.has_char c (Dict.get_default k dflt d) = false.
Proof.
  intros Hdflt. unfold Dict.get_default.
  induction 1 as [ | [k0 v0] d H0 Hd IH]; simpl; [exact Hdflt | ].
  destruct (decide (k0 = k)); [exact H0 | exact IH].
Qed.

Lemma has_char_get (k v : string) (d : list (string * string)) :
  Forall (fun kv => Str.has_char c kv.2 = false) d ->
  Dict.get k d = Some v -> Str.has_char c v = false.
Proof.
  induction 1 as [ | [k0 v0] d H0 Hd IH]; simpl; [discriminate | ].
  destruct (decide (k0 = k)); [now intros [= <-] | exact IH].
Qed.

End HasChar.

(** ** Literals without a minus sign *)

Lemma scan_sign_plain (s : string) :
  Str.has_char "-" s = false -> fst (Num.scan_sign s) = false.
Proof.
  destruct s as [ | a s]; simpl; [reflexivity | ].
  intros H. apply orb_false_iff in H as [Ha _]. rewrite Ha.
  now destruct (Ascii.eqb a "+").
Qed.

Lemma literal_strip_plain (s : string) :
  Str.has_char "-" s = false -> Str.has_char "-" (Num.literal_strip s) = false.
Proof. intros H. unfold Num.literal_strip. now apply has_char_rstrip, has_char_lstrip. Qed.

Lemma digit_nonneg (a : ascii) (d : Z) : Num.digit a = Some d -> 0 <= d.
Proof.
  unfold Num.digit, Str.in_range.
  destruct (48 <=? Str.code a) eqn:E; simpl; [ | discriminate].
  destruct (Str.code a <=? 57); [ | discriminate].
  intros [= <-]. apply Z.leb_le in E. lia.
Qed.

Lemma scan_more_nonneg_tails (s : string) :
  (forall acc k, 0 <= acc -> 0 <= (Num.scan_more acc k s).1.1) /\
  (forall a acc k, 0 <= acc -> 0 <= (Num.scan_more acc k (String a s)).1.1).
Proof.
  induction s as [ | b s [IH1 IH2]].
  - split; [intros acc k Hacc; exact Hacc | ].
    intros a acc k Hacc. simpl.
    destruct (Num.digit a) as [d | ] eqn:Hd.
    + simpl. apply digit_nonneg in Hd. lia.
    + now destruct (Ascii.eqb a "_").
  - split; [exact (IH2 b) | ].
    intros a acc k Hacc. cbn [Num.scan_more].
    destruct (Num.digit a) as [d | ] eqn:Hd.
    + apply IH2. apply digit_nonneg in Hd. lia.
    + destruct (Ascii.eqb a "_"); [ | exact Hacc].
      destruct (Num.digit b) as [d | ] eqn:Hd'; [ | exact Hacc].
      apply IH1. apply digit_nonneg in Hd'. lia.
Qed.

Lemma scan_more_nonneg (s : string) (acc : Z) (k : nat) :
  0 <= acc -> 0 <= (Num.scan_more acc k s).1.1.
Proof. apply scan_more_nonneg_tails. Qed.

Lemma scan_digitpart_nonneg (s : string) (acc : Z) :
  0 <= acc -> 0 <= (Num.scan_digitpart acc s).1.1.
Proof.
  intros Hacc. destruct s as [ | a s]; simpl; [exact Hacc | ].
  destruct (Num.digit a) as [d | ] eqn:Hd; [ | exact Hacc].
  apply scan_more_nonneg. apply digit_nonneg in Hd. lia.
Qed.

(** [int] of a text without ["-"] is not negative. *)
Lemma int_of_str_nonneg (s : string) (n : Z) :
  Str.has_char "-" s = false -> Num.int_of_str s = Ok n -> 0 <= n.
Proof.
  intros Hs. unfold Num.int_of_str.
  pose proof (scan_sign_plain _ (literal_strip_plain s Hs)) as Hsign.
  destruct (Num.scan_sign (Num.literal_strip s)) as [neg body]. simpl in Hsign. subst neg.
  pose proof (scan_digitpart_nonneg body 0 ltac:(lia)) as Hv.
  destruct (Num.scan_digitpart 0 body) as [[v k] rest]. simpl in Hv.
  destruct k; [discriminate | ]. destruct rest; [ | discriminate].
  now intros [= <-].
Qed.

Lemma binary_round_aux_positive (q e : Z) (l : location) :
  not_below_zero (binary_round_aux Num.prec Num.emax false q e l).
Proof.
  unfold binary_round_aux.
  destruct (shr_fexp _ _ q e l) as [mrs' e'].
  destruct (shr_fexp _ _ _ e' loc_Exact) as [mrs'' e''].
  destruct (shr_m mrs'') as [ | m | m]; try reflexivity.
  destruct (e'' <=? Num.emax - Num.prec); [ | reflexivity].
  unfold not_below_zero, Num.lt. simpl.
  destruct (Z.leb_spec 0 e''); simpl; [ | reflexivity].
  assert (0 < Z.pos m * 2 ^ e'') by (apply Z.mul_pos_pos; [lia | apply Z.pow_pos_nonneg; lia]).
  destruct (Z.pos m * 2 ^ e''); [lia | reflexivity | lia].
Qed.

(** [float] of a text without ["-"] is not below zero. *)
Lemma float_of_str_not_below_zero (s : string) (f : spec_float) :
  Str.has_char "-" s = false -> Num.float_of_str s = Ok f -> not_below_zero f.
Proof.
  intros Hs. unfold Num.float_of_str.
  pose proof (scan_sign_plain _ (literal_strip_plain s Hs)) as Hsign.
  destruct (Num.scan_sign (Num.literal_strip s)) as [neg body]. simpl in Hsign. subst neg.
  destruct (String.eqb (Str.lowercase body) "inf" || String.eqb (Str.lowercase body) "infinity").
  { now intros [= <-]. }
  destruct (String.eqb (Str.lowercase body) "nan").
  { now intros [= <-]. }
  destruct (Num.scan_digitpart 0 body) as [[m1 n1] r1].
  destruct (match r1 with
            | String c r => if Ascii.eqb c "." then Num.scan_digitpart m1 r else (m1, 0%nat, r1)
            | EmptyString => (m1, 0%nat, r1)
            end) as [[m2 n2] r2].
  destruct (n1 + n2)%nat; [discriminate | ].
  destruct (Num.scan_exponent r2) as [e | ]; [ | discriminate].
  intros [= <-]. unfold Num.float_of_decimal, Num.float_of_ratio.
  destruct (m2 * 10 ^ Z.max (e - Z.of_nat n2) 0 =? 0); [reflexivity | ].
  destruct (SFdiv_core_binary _ _ _ _ _ _) as [[q e'] l].
  apply binary_round_aux_positive.
Qed.

(** The accelerator found by the second loop: none, with count 0, or a key
    containing ["nvidia.com"]. *)
Lemma scan_gpu_kind (resource items : list (string * string)) :
  forall g g',
    (g.1 = None /\ g.2 = 0 \/ exists k, g.1 = Some k /\ Str.contains "nvidia.com" k = true) ->
    scan_gpu resource items g = Ok g' ->
    g'.1 = None /\ g'.2 = 0 \/ exists k, g'.1 = Some k /\ Str.contains "nvidia.com" k = true.
Proof.
  induction items as [ | [key v] items IH]; intros g g' Hg Hscan; simpl in Hscan.
  - now injection Hscan as <-.
  - destruct (Str.contains "nvidia.com" key) eqn:Hkey; [ | now apply (IH g)].
    apply pybind_inv in Hscan as (text & _ & Hscan).
    apply pybind_inv in Hscan as (n & _ & Hscan).
    apply (IH (Some key, n)); [ | exact Hscan]. right. now exists key.
Qed.

Lemma scan_gpu_nonneg (resource items : list (string * string)) :
  Forall (fun kv => Str.has_char "-" kv.2 = false) resource ->
  forall g g',
    0 <= g.2 ->
    scan_gpu resource items g = Ok g' ->
    0 <= g'.2.
Proof.
  intros Hres. induction items as [ | [key v] items IH]; intros g g' Hg Hscan;
    simpl in Hscan.
  - now injection Hscan as <-.
  - destruct (Str.contains "nvidia.com" key); [ | now apply (IH g)].
    apply pybind_inv in Hscan as (text & Htext & Hscan).
    apply pybind_inv in Hscan as (n & Hn & Hscan).
    apply (IH (Some key, n)); [ | exact Hscan]. simpl.
    destruct (Dict.get key resource) as [t | ] eqn:Hget; [ | discriminate].
    injection Htext as ->.
    apply (int_of_str_nonneg text n); [ | exact Hn].
    now apply (has_char_get "-" key text resource).
Qed.

(** C8 (as amended). The constructor stores its arguments as given, and
    [resource_str_to_node_resource] checks no range. What the parser
    guarantees: a non-zero [gpu_num] comes with a non-empty [gpu_type] (a key
    containing ["nvidia.com"]); and when the text has no minus sign, [cpu] and
    [memory] are not below zero and [gpu_num >= 0]. *)
Theorem resource_invariant_facts :
  (forall cpu memory gpu_type gpu_num,
     NodeResource.cpu (NodeResource_init cpu memory gpu_type gpu_num) = cpu /\
     NodeResource.memory (NodeResource_init cpu memory gpu_type gpu_num) = memory /\
     NodeResource.gpu_type (NodeResource_init cpu memory gpu_type gpu_num) = gpu_type /\
     NodeResource.gpu_num (NodeResource_init cpu memory gpu_type gpu_num) = gpu_num) /\
  (forall arg r,
     resource_str_to_node_resource arg = Ok r ->
     (NodeResource.gpu_num r <> 0 ->
      exists k, NodeResource.gpu_type r = Some k /\ k <> EmptyString /\
                Str.contains "nvidia.com" k = true) /\
     (forall s, arg = ArgStr s -> Str.has_char "-" s = false ->
        Num.lt (NodeResource.cpu r) (PyInt 0) = false /\
        Num.lt (NodeResource.memory r) (PyInt 0) = false /\
        0 <= NodeResource.gpu_num r)).
Proof.
  split; [now repeat split | ].
  intros arg r Hparse.
  assert (Hzero : r = NodeResource_init (PyInt 0) (PyInt 0) None 0 ->
    (NodeResource.gpu_num r <> 0 ->
      exists k, NodeResource.gpu_type r = Some k /\ k <> EmptyString /\
                Str.contains "nvidia.com" k = true) /\
     (forall s, arg = ArgStr s -> Str.has_char "-" s = false ->
        Num.lt (NodeResource.cpu r) (PyInt 0) = false /\
        Num.lt (NodeResource.memory r) (PyInt 0) = false /\
        0 <= NodeResource.gpu_num r)).
  { intros ->. split; [intros H; now contradiction H | ]. intros s _ _. now repeat split. }
  destruct arg as [ | s | d].
  - injection Hparse as <-. now apply Hzero.
  - destruct (decide (s = EmptyString)) as [-> | Hs].
    { injection Hparse as <-. now apply Hzero. }
    rewrite resource_str_text in Hparse by exact Hs.
    apply resource_of_text_inv in Hparse
      as (resource & memory & cpu & gpu & Hfill & Hmem & Hcpu & Hgpu & ->).
    simpl. split.
    + intros Hnum.
      destruct (scan_gpu_kind resource resource (None, 0) gpu
                  ltac:(left; now split) Hgpu) as [[_ H0] | (k & Hk & Hin)];
        [contradiction | ].
      exists k. split; [exact Hk | ]. split; [ | exact Hin].
      intros ->. discriminate Hin.
    + intros s' [= <-] Hplain.
      assert (Hvalues : Forall (fun kv => Str.has_char "-" kv.2 = false) resource).
      { apply (has_char_fill_resource "-" (tokens_of s) [] resource); [ | constructor | exact Hfill].
        unfold tokens_of. apply has_char_split. unfold Str.strip.
        now apply has_char_rstrip, has_char_lstrip. }
      split; [ | split].
      * apply (float_of_str_not_below_zero _ cpu) in Hcpu; [exact Hcpu | ].
        now apply has_char_get_default.
      * apply (float_of_str_not_below_zero _ memory) in Hmem; [exact Hmem | ].
        now apply has_char_slice, has_char_get_default.
      * apply (scan_gpu_nonneg resource resource Hvalues (None, 0) gpu); [simpl; lia | exact Hgpu].
  - destruct d; [ | discriminate]. injection Hparse as <-. now apply Hzero.
Qed.

Lemma resource_invariant_facts_witness :
  resource_str_to_node_resource (ArgStr "cpu=0.5,nvidia.com/gpu=2")
    = Ok (NodeResource_init (PyFloat (S754_finite false 4503599627370496 (-53)))
            (PyFloat (S754_zero false)) (Some "nvidia.com/gpu") 2) /\
  Str.has_char "-" "cpu=0.5,nvidia.com/gpu=2" = false /\
  Num.lt (PyFloat (S754_finite false 4503599627370496 (-53))) (PyInt 0) = false /\
  Num.lt (PyFloat (S754_zero false)) (PyInt 0) = false /\
  0 <= 2.
Proof.
  assert (Hparse :
    resource_str_to_node_resource (ArgStr "cpu=0.5,nvidia.com/gpu=2")
    = Ok (NodeResource_init (PyFloat (S754_finite false 4503599627370496 (-53)))
            (PyFloat (S754_zero false)) (Some "nvidia.com/gpu") 2))
    by (vm_compute; reflexivity).
  split; [exact Hparse | ]. split; [reflexivity | ].
  exact (proj2 (proj2 resource_invariant_facts _ _ Hparse) _ eq_refl eq_refl).
Defined.

(** C8, the claim as stated fails: neither the constructor nor the parser
    rejects negative numbers. *)
Lemma negative_resources_accepted :
  (exists r, resource_str_to_node_resource (ArgStr "cpu=-1") = Ok r /\
             Num.ge (NodeResource.cpu r) (PyInt 0) = false) /\
  (exists r, resource_str_to_node_resource (ArgStr "memory=-5Mi,nvidia.com/gpu=-2") = Ok r /\
             Num.ge (NodeResource.memory r) (PyInt 0) = false /\
             NodeResource.gpu_num r = -2) /\
  Num.ge (NodeResource.cpu (NodeResource_init (PyInt (-1)) (PyInt (-1)) None (-1)))
    (PyInt 0) = false.
Proof.
  split; [ | split].
  - eexists. split; [vm_compute; reflexivity | reflexivity].
  - eexists. split; [vm_compute; reflexivity | ]. split; reflexivity.
  - reflexivity.
Qed.

(** ** Errors of the two conversions *)

Lemma int_of_str_raises (s : string) (e : exn) :
  Num.int_of_str s = Raise e -> e = ValueError.
Proof.
  unfold Num.int_of_str.
  destruct (Num.scan_sign (Num.literal_strip s)) as [neg body].
  destruct (Num.scan_digitpart 0 body) as [[v k] rest].
  destruct k; [now intros [= <-] | ].
  destruct rest; [discriminate | now intros [= <-]].
Qed.

Lemma get_setitem (k k' v : string) (d : list (string * string)) :
  Dict.get k (Dict.setitem k' v d) = if decide (k' = k) then Some v else Dict.get k d.
Proof.
  induction d as [ | [k0 v0] d IH]; simpl.
  - destruct (decide (k' = k)); reflexivity.
  - destruct (decide (k0 = k')) as [-> | Hne]; simpl.
    + destruct (decide (k' = k)); reflexivity.
    + destruct (decide (k0 = k)) as [-> | Hne'].
      * now rewrite decide_False by congruence.
      * exact IH.
Qed.

(** A key that no token carries is not in the dictionary. *)
Lemma fill_resource_absent (tokens : list string) :
  forall (acc res : list (string * string)) (k : string),
    k ∉ map token_key tokens ->
    fill_resource tokens acc = Ok res ->
    Dict.get k res = Dict.get k acc.
Proof.
  induction tokens as [ | value rest IH]; intros acc res k Hk Hfill.
  - now injection Hfill as <-.
  - rewrite fill_resource_step in Hfill.
    destruct (token_value value) as [v | ]; [ | discriminate].
    rewrite (IH _ _ k) with (2 := Hfill).
    + rewrite get_setitem. rewrite decide_False; [reflexivity | ].
      intros E. apply Hk. rewrite <- E. simpl. apply list_elem_of_here.
    + intros Hin. apply Hk. simpl. now apply list_elem_of_further.
Qed.

Lemma float_of_str_raises (s : string) (e : exn) :
  Num.float_of_str s = Raise e -> e = ValueError.
Proof.
  unfold Num.float_of_str.
  destruct (Num.scan_sign (Num.literal_strip s)) as [neg body].
  destruct (String.eqb (Str.lowercase body) "inf" || String.eqb (Str.lowercase body) "infinity");
    [discriminate | ].
  destruct (String.eqb (Str.lowercase body) "nan"); [discriminate | ].
  destruct (Num.scan_digitpart 0 body) as [[m1 n1] r1].
  destruct (match r1 with
            | String c r => if Ascii.eqb c "." then Num.scan_digitpart m1 r else (m1, 0%nat, r1)
            | EmptyString => (m1, 0%nat, r1)
            end) as [[m2 n2] r2].
  destruct (n1 + n2)%nat; [now intros [= <-] | ].
  destruct (Num.scan_exponent r2); [discriminate | now intros [= <-]].
Qed.

(** A token has a value unless it has no ["="]. *)
Lemma token_value_none (value : string) :
  token_value value = None -> Str.has_char "=" value = false.
Proof.
  unfold token_value. induction value as [ | a s IH]; simpl; [reflexivity | ].
  destruct (Ascii.eqb a "=") eqn:Ha.
  - destruct (split_cons "=" s) as (t & ts & ->). discriminate.
  - destruct (split_cons "=" s) as (t & ts & Hsplit). rewrite Hsplit in IH |- *.
    simpl. exact IH.
Qed.

(** The first loop fails only on a token without ["="], with [IndexError]. *)
Lemma fill_resource_raises (tokens : list string) :
  forall (acc : list (string * string)) (e : exn),
    fill_resource tokens acc = Raise e ->
    e = IndexError /\ Exists (fun value => Str.has_char "=" value = false) tokens.
Proof.
  induction tokens as [ | value rest IH]; intros acc e Hfill; [discriminate | ].
  rewrite fill_resource_step in Hfill.
  destruct (token_value value) as [v | ] eqn:Hv.
  - destruct (IH _ _ Hfill) as [-> Hex]. split; [reflexivity | now apply Exists_cons_tl].
  - injection Hfill as <-. split; [reflexivity | ].
    apply Exists_cons_hd. now apply token_value_none.
Qed.

Lemma get_of_item (k v : string) (d : list (string * string)) :
  (k, v) ∈ d -> Dict.get k d <> None.
Proof.
  induction d as [ | [k0 v0] d IH]; simpl; intros Hin.
  - now apply elem_of_nil in Hin.
  - destruct (decide (k0 = k)) as [-> | Hne]; [discriminate | ].
    apply elem_of_cons in Hin as [[= <- <-] | Hin]; [congruence | now apply IH].
Qed.

(** The second loop fails only when [int] rejects a count. *)
Lemma scan_gpu_raises (resource items : list (string * string)) :
  forall g e,
    (forall kv, kv ∈ items -> kv ∈ resource) ->
    scan_gpu resource items g = Raise e ->
    e = ValueError.
Proof.
  induction items as [ | [key v] items IH]; intros g e Hsub Hscan; simpl in Hscan;
    [discriminate | ].
  assert (Hrest : forall kv, kv ∈ items -> kv ∈ resource)
    by (intros kv Hkv; apply Hsub; now apply list_elem_of_further).
  destruct (Str.contains "nvidia.com" key); [ | now apply (IH g)].
  destruct (Dict.get key resource) as [text | ] eqn:Hget.
  - simpl in Hscan. destruct (Num.int_of_str text) as [n | e'] eqn:Hint; simpl in Hscan.
    + now apply (IH (Some key, n)).
    + injection Hscan as <-. now apply (int_of_str_raises text).
  - exfalso. apply (get_of_item key v resource); [ | exact Hget].
    apply Hsub, list_elem_of_here.
Qed.




(** C5. The parser drops the unit of the memory literal without converting:
    ["memory=1Gi"] gives [memory = 1.0] where [convert_memory_to_mb "1Gi"] is
    1024, and ["memory=2048Ki"] gives [2048.0] where [convert_memory_to_mb] gives 2. *)
Theorem memory_unit_dropped :
  resource_str_to_node_resource (ArgStr "memory=1Gi")
    = Ok (NodeResource_init (PyFloat (S754_zero false))
            (PyFloat (S754_finite false 4503599627370496 (-52))) None 0) /\
  Num.compare (PyFloat (S754_finite false 4503599627370496 (-52))) (PyInt 1) = Some Eq /\
  convert_memory_to_mb "1Gi" = Ok 1024 /\
  resource_str_to_node_resource (ArgStr "memory=2048Ki")
    = Ok (NodeResource_init (PyFloat (S754_zero false))
            (PyFloat (S754_finite false 4503599627370496 (-41))) None 0) /\
  Num.compare (PyFloat (S754_finite false 4503599627370496 (-41))) (PyInt 2048) = Some Eq /\
  convert_memory_to_mb "2048Ki" = Ok 2.
Proof. repeat split; vm_compute; reflexivity. Qed.

(** ** to_resource_dict *)

Section WireMap.
Variable float_repr : spec_float -> string.


End WireMap.



(** * Further properties of the node classes *)

(** ** The verdict of is_unrecoverable_failure *)

Section VerdictFacts.
Variable FATAL_ERROR : string.
Variable MAX_MEMORY : pynum.

Lemma verdict_at (h : gmap loc object) (self : loc) (n : Node.t) (u : NodeResource.t) :
  h !! self = Some (NodeObj n) ->
  h !! Node.used_resource n = Some (ResourceObj u) ->
  is_unrecoverable_failure FATAL_ERROR MAX_MEMORY self h =
    Ok (failure_verdict FATAL_ERROR MAX_MEMORY (Node.relaunch_count n)
          (Node.max_relaunch_count n) (Node.exit_reason n) (NodeResource.memory u), h).
Proof.
  intros Hself Hu. unfold is_unrecoverable_failure, failure_verdict.
  rewrite (bind_ok _ _ _ _ _ (get_node_at h self n Hself)).
  destruct (Node.max_relaunch_count n <=? Node.relaunch_count n); [reflexivity | ].
  destruct (bool_decide (Node.exit_reason n = Some FATAL_ERROR)); [reflexivity | ].
  rewrite (bind_ok _ _ _ _ _ (get_resource_at h _ u Hu)).
  now destruct (Num.ge (NodeResource.memory u) MAX_MEMORY).
Qed.

(** [is_unrecoverable_failure] only reads. *)
Lemma verdict_reads (h h' : gmap loc object) (self : loc) (b : bool) :
  is_unrecoverable_failure FATAL_ERROR MAX_MEMORY self h = Ok (b, h') -> h' = h.
Proof.
  unfold is_unrecoverable_failure. intros Hq.
  apply bind_inv in Hq as (n0 & h0 & Hn0 & Hq).
  apply get_node_inv in Hn0 as [-> Hn0].
  destruct (Node.max_relaunch_count n0 <=? Node.relaunch_count n0); [now injection Hq | ].
  destruct (bool_decide (Node.exit_reason n0 = Some FATAL_ERROR)); [now injection Hq | ].
  apply bind_inv in Hq as (u & h0 & Hu & Hq).
  apply get_resource_inv in Hu as [-> Hu].
  destruct (Num.ge (NodeResource.memory u) MAX_MEMORY); now injection Hq.
Qed.

(** When the verdict is [True], and when it stays so. *)
Lemma verdict_true_inv (h : gmap loc object) (self : loc) :
  is_unrecoverable_failure FATAL_ERROR MAX_MEMORY self h = Ok (true, h) ->
  exists n,
    h !! self = Some (NodeObj n) /\
    (Node.max_relaunch_count n <= Node.relaunch_count n \/
     Node.exit_reason n = Some FATAL_ERROR \/
     exists u, h !! Node.used_resource n = Some (ResourceObj u) /\
               Num.ge (NodeResource.memory u) MAX_MEMORY = true).
Proof.
  unfold is_unrecoverable_failure. intros Hq.
  apply bind_inv in Hq as (n & h0 & Hn & Hq).
  apply get_node_inv in Hn as [-> Hn].
  exists n. split; [exact Hn | ].
  destruct (Z.leb_spec (Node.max_relaunch_count n) (Node.relaunch_count n)); [now left | ].
  right. case_bool_decide as Hexit; [now left | ]. right.
  apply bind_inv in Hq as (u & h0 & Hu & Hq).
  apply get_resource_inv in Hu as [-> Hu].
  exists u. split; [exact Hu | ].
  destruct (Num.ge (NodeResource.memory u) MAX_MEMORY); [reflexivity | discriminate].
Qed.

Lemma verdict_true_intro (h : gmap loc object) (self : loc) (n : Node.t) :
  h !! self = Some (NodeObj n) ->
  (Node.max_relaunch_count n <= Node.relaunch_count n \/
   Node.exit_reason n = Some FATAL_ERROR \/
   exists u, h !! Node.used_resource n = Some (ResourceObj u) /\
             Num.ge (NodeResource.memory u) MAX_MEMORY = true) ->
  is_unrecoverable_failure FATAL_ERROR MAX_MEMORY self h = Ok (true, h).
Proof.
  intros Hself Hwhy. unfold is_unrecoverable_failure.
  rewrite (bind_ok _ _ _ _ _ (get_node_at h self n Hself)).
  destruct (Z.leb_spec (Node.max_relaunch_count n) (Node.relaunch_count n)); [reflexivity | ].
  case_bool_decide as Hexit; [reflexivity | ].
  destruct Hwhy as [Hc | [He | (u & Hu & Hge)]]; [lia | contradiction | ].
  rewrite (bind_ok _ _ _ _ _ (get_resource_at h _ u Hu)). now rewrite Hge.
Qed.

(** X1. Calling [inc_relaunch_count] [k] times adds [k] to the relaunch count
    and changes nothing else; afterwards [is_unrecoverable_failure] answers
    for the count [relaunch_count + k]: a node that is neither fatally exited
    nor over the memory ceiling becomes unrecoverable exactly when the calls
    bring the count up to [max_relaunch_count]. *)
Theorem inc_relaunch_count_budget (k : nat) :
  forall (h : gmap loc object) (self : loc) (n : Node.t) (u : NodeResource.t),
    h !! self = Some (NodeObj n) ->
    h !! Node.used_resource n = Some (ResourceObj u) ->
    exists h',
      inc_relaunch_count_times k self h = Ok (tt, h') /\
      h' !! self = Some (NodeObj (Node.set_relaunch_count
                                    (Node.relaunch_count n + Z.of_nat k) n)) /\
      (forall l, l <> self -> h' !! l = h !! l) /\
      is_unrecoverable_failure FATAL_ERROR MAX_MEMORY self h' =
        Ok (failure_verdict FATAL_ERROR MAX_MEMORY
              (Node.relaunch_count n + Z.of_nat k) (Node.max_relaunch_count n)
              (Node.exit_reason n) (NodeResource.memory u), h').
Proof.
  induction k as [ | k IH]; intros h self n u Hself Hu.
  - exists h. split; [reflexivity | ].
    assert (Hn : Node.set_relaunch_count (Node.relaunch_count n + Z.of_nat 0) n = n).
    { change (Z.of_nat 0) with 0. rewrite Z.add_0_r. now destruct n. }
    rewrite Hn. split; [exact Hself | ]. split; [reflexivity | ].
    rewrite (verdict_at h self n u Hself Hu).
    change (Z.of_nat 0) with 0. now rewrite Z.add_0_r.
  - assert (Hne : Node.used_resource n <> self) by (intros E; congruence).
    cbn [inc_relaunch_count_times]. unfold inc_relaunch_count at 1.
    rewrite (bind_ok _ _ _ _ _ (modify_node_at h self n _ Hself)).
    set (n1 := Node.set_relaunch_count (Node.relaunch_count n + 1) n).
    set (h1 := <[self := NodeObj n1]> h).
    destruct (IH h1 self n1 u) as (h' & Hrun & Hself' & Hframe & Hq).
    { apply lookup_insert_eq. }
    { change (Node.used_resource n1) with (Node.used_resource n).
      unfold h1. now rewrite lookup_insert_ne by (intros E; congruence). }
    exists h'. split; [exact Hrun | ].
    assert (Hn : Node.set_relaunch_count (Node.relaunch_count n1 + Z.of_nat k) n1
                 = Node.set_relaunch_count (Node.relaunch_count n + Z.of_nat (S k)) n).
    { rewrite Nat2Z.inj_succ. unfold n1. destruct n.
      unfold Node.set_relaunch_count. simpl. f_equal. lia. }
    rewrite Hn in Hself'. split; [exact Hself' | ]. split.
    + intros l Hl. rewrite (Hframe l Hl). unfold h1. now rewrite lookup_insert_ne by congruence.
    + rewrite Hq. rewrite Nat2Z.inj_succ. unfold n1. simpl.
      replace (Node.relaunch_count n + 1 + Z.of_nat k)
        with (Node.relaunch_count n + Z.succ (Z.of_nat k)) by lia. reflexivity.
Qed.

Lemma update_info_run (h : gmap loc object) (self : loc) (n : Node.t)
    (name : option string) (start_time : option Z) (create_time : option datetime) :
  h !! self = Some (NodeObj n) ->
  update_info self name start_time create_time h =
    Ok (tt, <[self := NodeObj (update_info_result name start_time create_time n)]> h).
Proof.
  intros Hself. unfold update_info, update_info_result.
  assert (Hid : forall (g : gmap loc object) m, g !! self = Some (NodeObj m) ->
                  g = <[self := NodeObj m]> g)
    by (intros g m Hg; symmetry; now apply insert_id).
  destruct name as [v1 | ].
  - rewrite (bind_ok _ _ _ _ _ (modify_node_at h self n _ Hself)).
    destruct start_time as [v2 | ].
    + erewrite bind_ok by (apply modify_node_at, lookup_insert_eq).
      rewrite insert_insert_eq.
      destruct create_time as [v3 | ].
      * erewrite modify_node_at by apply lookup_insert_eq. now rewrite insert_insert_eq.
      * reflexivity.
    + unfold bind at 1, ret at 1.
      destruct create_time as [v3 | ].
      * erewrite modify_node_at by apply lookup_insert_eq. now rewrite insert_insert_eq.
      * reflexivity.
  - unfold bind at 1, ret at 1.
    destruct start_time as [v2 | ].
    + rewrite (bind_ok _ _ _ _ _ (modify_node_at h self n _ Hself)).
      destruct create_time as [v3 | ].
      * erewrite modify_node_at by apply lookup_insert_eq. now rewrite insert_insert_eq.
      * reflexivity.
    + unfold bind at 1, ret at 1.
      destruct create_time as [v3 | ].
      * now rewrite (modify_node_at h self n _ Hself).
      * unfold ret. f_equal. f_equal. now apply Hid.
Qed.

(** What a call that leaves the inputs of the verdict alone does to the node
    it is made on. *)
Lemma quiet_call_effect (c : node_call) (h h' : gmap loc object) (self : loc)
    (n : Node.t) (r : unit) :
  rewrites_failure_inputs c = false ->
  h !! self = Some (NodeObj n) ->
  run_call FATAL_ERROR MAX_MEMORY c self h = Ok (r, h') ->
  exists n',
    h' !! self = Some (NodeObj n') /\
    Node.relaunch_count n <= Node.relaunch_count n' /\
    Node.max_relaunch_count n' = Node.max_relaunch_count n /\
    Node.exit_reason n' = Node.exit_reason n /\
    Node.used_resource n' = Node.used_resource n /\
    (forall l o, l <> self -> h !! l = Some o -> h' !! l = Some o).
Proof.
  intros Hquiet Hself Hrun. destruct r.
  destruct c as [ | name start_time create_time | status | cpu memory
                | new_id | | reason ]; simpl in Hrun; try discriminate Hquiet.
  - apply modify_node_inv in Hrun as (n0 & Hn0 & ->).
    assert (n0 = n) by congruence. subst n0.
    eexists. split; [apply lookup_insert_eq | ]. simpl.
    split; [lia | ]. repeat (split; [reflexivity | ]).
    intros l o Hl Hlo. now rewrite lookup_insert_ne by congruence.
  - rewrite (update_info_run h self n _ _ _ Hself) in Hrun. injection Hrun as <-.
    eexists. split; [apply lookup_insert_eq | ].
    unfold update_info_result.
    destruct name, start_time, create_time; simpl;
      (split; [lia | ]; repeat (split; [reflexivity | ]);
       intros l o Hl Hlo; now rewrite lookup_insert_ne by congruence).
  - destruct status as [s | ].
    + apply modify_node_inv in Hrun as (n0 & Hn0 & ->).
      assert (n0 = n) by congruence. subst n0.
      eexists. split; [apply lookup_insert_eq | ]. simpl.
      split; [lia | ]. repeat (split; [reflexivity | ]).
      intros l o Hl Hlo. now rewrite lookup_insert_ne by congruence.
    + injection Hrun as <-. exists n. split; [exact Hself | ].
      split; [lia | ]. repeat (split; [reflexivity | ]). now intros l o _ Hlo.
  - apply bind_inv in Hrun as (l' & h1 & Hget & Hrun).
    injection Hrun as <-.
    apply get_relaunch_node_info_keeps in Hget.
    exists n. split; [now apply Hget | ].
    split; [lia | ]. repeat (split; [reflexivity | ]).
    intros l o _ Hlo. now apply Hget.
  - apply bind_inv in Hrun as (b & h1 & Hq & Hrun).
    injection Hrun as <-. apply verdict_reads in Hq. subst h1.
    exists n. split; [exact Hself | ].
    split; [lia | ]. repeat (split; [reflexivity | ]). now intros l o _ Hlo.
Qed.

(** X2. An unrecoverable node stays unrecoverable under every call that is
    neither [update_resource_usage] nor [set_exit_reason]: the relaunch count
    never goes down, and nothing else that the verdict reads is written. *)
Theorem unrecoverable_stays (c : node_call) (h h' : gmap loc object) (self : loc)
    (r : unit) :
  rewrites_failure_inputs c = false ->
  is_unrecoverable_failure FATAL_ERROR MAX_MEMORY self h = Ok (true, h) ->
  run_call FATAL_ERROR MAX_MEMORY c self h = Ok (r, h') ->
  is_unrecoverable_failure FATAL_ERROR MAX_MEMORY self h' = Ok (true, h').
Proof.
  intros Hquiet Hbefore Hrun.
  apply verdict_true_inv in Hbefore as (n & Hself & Hwhy).
  destruct (quiet_call_effect c h h' self n r Hquiet Hself Hrun)
    as (n' & Hself' & Hcount & Hmax & Hexit & Hused & Hframe).
  apply (verdict_true_intro h' self n' Hself').
  destruct Hwhy as [Hc | [He | (u & Hu & Hge)]].
  - left. lia.
  - right. left. congruence.
  - right. right. exists u. split; [ | exact Hge].
    rewrite Hused. apply Hframe; [ | exact Hu]. intros E. congruence.
Qed.

Lemma update_resource_usage_run (h : gmap loc object) (self : loc)
    (n : Node.t) (u : NodeResource.t) (cpu memory : pynum) :
  h !! self = Some (NodeObj n) ->
  h !! Node.used_resource n = Some (ResourceObj u) ->
  update_resource_usage self cpu memory h =
    Ok (tt, <[Node.used_resource n :=
                ResourceObj (NodeResource.set_memory memory (NodeResource.set_cpu cpu u))]> h).
Proof.
  intros Hself Hu.
  assert (Hne : Node.used_resource n <> self) by (intros E; congruence).
  unfold update_resource_usage, modify_resource.
  rewrite (bind_ok _ _ _ _ _ (get_node_at h self n Hself)).
  unfold bind at 1.
  rewrite (bind_ok _ _ _ _ _ (get_resource_at h _ u Hu)). unfold put at 1.
  erewrite bind_ok
    by (apply get_node_at; rewrite lookup_insert_ne by exact Hne; exact Hself).
  erewrite bind_ok by (apply get_resource_at, lookup_insert_eq).
  unfold put. now rewrite insert_insert_eq.
Qed.

(** X3. [update_resource_usage(cpu, memory)] writes [cpu] and [memory] into
    the node's used resource object and nothing else: the accelerator, image
    and priority attributes of that object and every other object are
    unchanged. Afterwards the verdict of [is_unrecoverable_failure] is that
    of the new memory value. *)
Theorem update_resource_usage_effect (h : gmap loc object) (self : loc)
    (n : Node.t) (u : NodeResource.t) (cpu memory : pynum) :
  h !! self = Some (NodeObj n) ->
  h !! Node.used_resource n = Some (ResourceObj u) ->
  let h' := <[Node.used_resource n :=
                ResourceObj (NodeResource.set_memory memory (NodeResource.set_cpu cpu u))]> h in
  update_resource_usage self cpu memory h = Ok (tt, h') /\
  h' !! self = Some (NodeObj n) /\
  is_unrecoverable_failure FATAL_ERROR MAX_MEMORY self h' =
    Ok (failure_verdict FATAL_ERROR MAX_MEMORY (Node.relaunch_count n)
          (Node.max_relaunch_count n) (Node.exit_reason n) memory, h').
Proof.
  intros Hself Hu h'.
  assert (Hne : Node.used_resource n <> self) by (intros E; congruence).
  assert (Hself' : h' !! self = Some (NodeObj n)).
  { unfold h'. now rewrite lookup_insert_ne by exact Hne. }
  split; [ | split; [exact Hself' | ]].
  - now apply update_resource_usage_run.
  - rewrite (verdict_at h' self n _ Hself' (lookup_insert_eq _ _ _)). reflexivity.
Qed.

(** X4. [set_exit_reason(reason)] replaces the exit reason: afterwards the
    verdict of [is_unrecoverable_failure] is that of [reason], whatever the
    reason was before, so a fatal reason makes the node unrecoverable and a
    later non-fatal one takes that back. *)
Theorem set_exit_reason_effect (h : gmap loc object) (self : loc)
    (n : Node.t) (u : NodeResource.t) (reason : option string) :
  h !! self = Some (NodeObj n) ->
  h !! Node.used_resource n = Some (ResourceObj u) ->
  let h' := <[self := NodeObj (Node.set_exit_reason reason n)]> h in
  set_exit_reason self reason h = Ok (tt, h') /\
  is_unrecoverable_failure FATAL_ERROR MAX_MEMORY self h' =
    Ok (failure_verdict FATAL_ERROR MAX_MEMORY (Node.relaunch_count n)
          (Node.max_relaunch_count n) reason (NodeResource.memory u), h') /\
  (reason = Some FATAL_ERROR ->
   is_unrecoverable_failure FATAL_ERROR MAX_MEMORY self h' = Ok (true, h')).
Proof.
  intros Hself Hu h'.
  assert (Hne : Node.used_resource n <> self) by (intros E; congruence).
  assert (Hq : is_unrecoverable_failure FATAL_ERROR MAX_MEMORY self h' =
    Ok (failure_verdict FATAL_ERROR MAX_MEMORY (Node.relaunch_count n)
          (Node.max_relaunch_count n) reason (NodeResource.memory u), h')).
  { rewrite (verdict_at h' self (Node.set_exit_reason reason n) u); [reflexivity | | ].
    - apply lookup_insert_eq.
    - unfold h'. simpl. now rewrite lookup_insert_ne by congruence. }
  split; [exact (modify_node_at h self n _ Hself) | ].
  split; [exact Hq | ].
  intros ->. rewrite Hq. unfold failure_verdict.
  rewrite bool_decide_eq_true_2 by reflexivity. now rewrite orb_true_r.
Qed.

End VerdictFacts.

(** ** Relaunch successors *)

(** [copy.deepcopy] of a node, in full: which objects it creates, what they
    hold, and which of them are the same object. *)
Lemma deepcopy_node_full (h : gmap loc object) (self : loc)
    (n : Node.t) (c u : NodeResource.t) :
  h !! self = Some (NodeObj n) ->
  h !! Node.config_resource n = Some (ResourceObj c) ->
  h !! Node.used_resource n = Some (ResourceObj u) ->
  exists l' h2 c' u',
    deepcopy_node self h = Ok (l', <[l' := NodeObj (Node.set_resources c' u' n)]> h2) /\
    h2 !! l' = None /\
    h !! l' = None /\
    h !! c' = None /\
    h !! u' = None /\
    h2 !! c' = Some (ResourceObj c) /\
    h2 !! u' = Some (ResourceObj u) /\
    keeps h h2 /\
    (Node.used_resource n = Node.config_resource n <-> u' = c').
Proof.
  intros Hself Hc Hu.
  unfold deepcopy_node.
  rewrite (bind_ok _ _ _ _ _ (get_node_at h self n Hself)).
  rewrite (bind_ok _ _ _ _ _ (get_resource_at h _ c Hc)).
  unfold bind at 1. unfold alloc at 1.
  set (c' := fresh (dom h)).
  set (h1 := <[c' := ResourceObj c]> h).
  assert (Hc'h : h !! c' = None) by apply fresh_unused.
  assert (K1 : keeps h h1) by (now apply keeps_insert_new).
  destruct (decide (Node.used_resource n = Node.config_resource n)) as [Heq | Hneq].
  - unfold bind at 1, ret at 1, alloc.
    exists (fresh (dom h1)), h1, c', c'.
    split; [reflexivity | ].
    split; [apply fresh_unused | ].
    split.
    { destruct (h !! fresh (dom h1)) as [o | ] eqn:E; [ | reflexivity].
      apply K1 in E. rewrite fresh_unused in E. discriminate. }
    split; [exact Hc'h | ]. split; [exact Hc'h | ].
    split; [apply lookup_insert_eq | ].
    split.
    { rewrite Heq in Hu. assert (u = c) by congruence. subst u. apply lookup_insert_eq. }
    split; [exact K1 | ]. now split.
  - unfold bind at 1.
    rewrite (bind_ok _ _ _ _ _ (get_resource_at h1 _ u (K1 _ _ Hu))).
    unfold alloc.
    set (u' := fresh (dom h1)).
    set (h2 := <[u' := ResourceObj u]> h1).
    assert (Hu'1 : h1 !! u' = None) by apply fresh_unused.
    assert (Hne : u' <> c').
    { intros E. rewrite E in Hu'1. unfold h1 in Hu'1.
      rewrite lookup_insert_eq in Hu'1. discriminate. }
    assert (K2 : keeps h h2).
    { eapply keeps_trans; [exact K1 | now apply keeps_insert_new]. }
    exists (fresh (dom h2)), h2, c', u'.
    split; [reflexivity | ].
    split; [apply fresh_unused | ].
    split.
    { destruct (h !! fresh (dom h2)) as [o | ] eqn:E; [ | reflexivity].
      apply K2 in E. rewrite fresh_unused in E. discriminate. }
    split; [exact Hc'h | ].
    split.
    { destruct (h !! u') as [o | ] eqn:E; [ | reflexivity].
      apply K1 in E. congruence. }
    split.
    { unfold h2. rewrite lookup_insert_ne by exact Hne. apply lookup_insert_eq. }
    split; [apply lookup_insert_eq | ].
    split; [exact K2 | ]. split; [contradiction | intros E; contradiction].
Qed.

(** [get_relaunch_node_info], in full. *)
Lemma get_relaunch_node_info_run (h : gmap loc object) (self : loc)
    (n : Node.t) (c u : NodeResource.t) (new_id : Z) :
  h !! self = Some (NodeObj n) ->
  h !! Node.config_resource n = Some (ResourceObj c) ->
  h !! Node.used_resource n = Some (ResourceObj u) ->
  exists l' h2 c' u',
    get_relaunch_node_info self new_id h
      = Ok (l', <[l' := NodeObj (relaunch_copy new_id c' u' n)]> h2) /\
    h2 !! l' = None /\
    h !! l' = None /\
    h !! c' = None /\
    h !! u' = None /\
    h2 !! c' = Some (ResourceObj c) /\
    h2 !! u' = Some (ResourceObj u) /\
    keeps h h2 /\
    (Node.used_resource n = Node.config_resource n <-> u' = c').
Proof.
  intros Hself Hc Hu.
  destruct (deepcopy_node_full h self n c u Hself Hc Hu)
    as (l' & h2 & c' & u' & Hrun & Hrest).
  exists l', h2, c', u'. split; [ | exact Hrest].
  unfold get_relaunch_node_info.
  rewrite (bind_ok _ _ _ _ _ Hrun).
  do 6 modify_fresh_node. reflexivity.
Qed.

Section SuccessorFacts.
Variable FATAL_ERROR : string.
Variable MAX_MEMORY : pynum.

(** X5. [get_relaunch_node_info] resets neither the exit reason nor the
    observed usage, and copies both relaunch counters: the successor is
    unrecoverable exactly when the original is. *)
Theorem successor_same_verdict (h : gmap loc object) (self : loc)
    (n : Node.t) (c u : NodeResource.t) (new_id : Z) :
  h !! self = Some (NodeObj n) ->
  h !! Node.config_resource n = Some (ResourceObj c) ->
  h !! Node.used_resource n = Some (ResourceObj u) ->
  exists new_node h' b,
    get_relaunch_node_info self new_id h = Ok (new_node, h') /\
    is_unrecoverable_failure FATAL_ERROR MAX_MEMORY self h = Ok (b, h) /\
    is_unrecoverable_failure FATAL_ERROR MAX_MEMORY new_node h' = Ok (b, h').
Proof.
  intros Hself Hc Hu.
  destruct (get_relaunch_node_info_run h self n c u new_id Hself Hc Hu)
    as (l' & h2 & c' & u' & Hrun & Hl'2 & Hl'h & Hc'h & Hu'h & Hc'2 & Hu'2 & K & Halias).
  eexists l', _, _. split; [exact Hrun | ].
  split; [apply (verdict_at _ _ h self n u Hself Hu) | ].
  rewrite (verdict_at _ _ _ l' (relaunch_copy new_id c' u' n) u); [reflexivity | | ].
  - apply lookup_insert_eq.
  - simpl. rewrite lookup_insert_ne; [exact Hu'2 | ]. intros E. congruence.
Qed.

End SuccessorFacts.

(** X6. The successor shares no resource object with the original: observed
    usage written to the successor leaves the original node and both of its
    resource objects as they were, and usage written to the original leaves
    the successor's copy as it was. *)
Theorem successor_usage_independent (h : gmap loc object) (self : loc)
    (n : Node.t) (c u : NodeResource.t) (new_id : Z) (cpu memory : pynum) :
  h !! self = Some (NodeObj n) ->
  h !! Node.config_resource n = Some (ResourceObj c) ->
  h !! Node.used_resource n = Some (ResourceObj u) ->
  exists new_node h' n',
    get_relaunch_node_info self new_id h = Ok (new_node, h') /\
    h' !! new_node = Some (NodeObj n') /\
    (exists h'',
       update_resource_usage new_node cpu memory h' = Ok (tt, h'') /\
       h'' !! self = Some (NodeObj n) /\
       h'' !! Node.config_resource n = Some (ResourceObj c) /\
       h'' !! Node.used_resource n = Some (ResourceObj u)) /\
    (exists h'',
       update_resource_usage self cpu memory h' = Ok (tt, h'') /\
       h'' !! new_node = Some (NodeObj n') /\
       h'' !! Node.used_resource n' = Some (ResourceObj u)).
Proof.
  intros Hself Hc Hu.
  destruct (get_relaunch_node_info_run h self n c u new_id Hself Hc Hu)
    as (l' & h2 & c' & u' & Hrun & Hl'2 & Hl'h & Hc'h & Hu'h & Hc'2 & Hu'2 & K & Halias).
  set (n' := relaunch_copy new_id c' u' n) in *.
  set (h' := <[l' := NodeObj n']> h2) in *.
  assert (K' : keeps h h').
  { eapply keeps_trans; [exact K | now apply keeps_insert_new]. }
  assert (Hnew : h' !! l' = Some (NodeObj n')) by apply lookup_insert_eq.
  assert (Hu'' : h' !! u' = Some (ResourceObj u)).
  { unfold h'. rewrite lookup_insert_ne; [exact Hu'2 | ]. intros E. congruence. }
  exists l', h', n'. split; [exact Hrun | ]. split; [exact Hnew | ].
  split.
  - pose proof (update_resource_usage_run h' l' n' u cpu memory Hnew Hu'') as Hupd.
    eexists. split; [exact Hupd | ].
    change (Node.used_resource n') with u'.
    assert (Hother : forall l o, h !! l = Some o ->
              <[u' := ResourceObj (NodeResource.set_memory memory
                                     (NodeResource.set_cpu cpu u))]> h' !! l = Some o).
    { intros l o Hl. rewrite lookup_insert_ne; [now apply K' | ].
      intros E. congruence. }
    split; [now apply Hother | ]. split; now apply Hother.
  - pose proof (update_resource_usage_run h' self n u cpu memory
                  (K' _ _ Hself) (K' _ _ Hu)) as Hupd.
    eexists. split; [exact Hupd | ].
    change (Node.used_resource n') with u'.
    split.
    + rewrite lookup_insert_ne; [exact Hnew | ]. intros E. congruence.
    + rewrite lookup_insert_ne; [exact Hu'' | ]. intros E. congruence.
Qed.

(** X7. Besides what it resets, the successor carries every attribute of the
    original over: exit reason, OOM-recovery mark, service address, creation
    and finish times; its used resource is a new object holding the
    original's observed values, and its two resources are one object exactly
    when the original's are. *)
Theorem successor_carries_over (h : gmap loc object) (self : loc)
    (n : Node.t) (c u : NodeResource.t) (new_id : Z) :
  h !! self = Some (NodeObj n) ->
  h !! Node.config_resource n = Some (ResourceObj c) ->
  h !! Node.used_resource n = Some (ResourceObj u) ->
  exists new_node h' n',
    get_relaunch_node_info self new_id h = Ok (new_node, h') /\
    h' !! new_node = Some (NodeObj n') /\
    Node.exit_reason n' = Node.exit_reason n /\
    Node.is_recovered_oom n' = Node.is_recovered_oom n /\
    Node.service_addr n' = Node.service_addr n /\
    Node.create_time n' = Node.create_time n /\
    Node.finish_time n' = Node.finish_time n /\
    h !! Node.used_resource n' = None /\
    h' !! Node.used_resource n' = Some (ResourceObj u) /\
    (Node.used_resource n' = Node.config_resource n' <->
     Node.used_resource n = Node.config_resource n).
Proof.
  intros Hself Hc Hu.
  destruct (get_relaunch_node_info_run h self n c u new_id Hself Hc Hu)
    as (l' & h2 & c' & u' & Hrun & Hl'2 & Hl'h & Hc'h & Hu'h & Hc'2 & Hu'2 & K & Halias).
  eexists l', _, _. split; [exact Hrun | ].
  split; [apply lookup_insert_eq | ]. simpl.
  repeat (split; [reflexivity | ]).
  split; [exact Hu'h | ].
  split.
  - rewrite lookup_insert_ne; [exact Hu'2 | ]. intros E. congruence.
  - symmetry. exact Halias.
Qed.

(** ** Construction and shared resources *)

Lemma Node_init_run (h : gmap loc object) (now : datetime)
    (node_type : string) (node_id : Z) (config_resource : loc)
    (name : option string) (status : NodeStatus.t) (start_time task_index : option Z)
    (relaunch_count : Z) (critical : bool) (max_relaunch_count : Z)
    (relaunchable : bool) (service_addr : option string) :
  exists self used n,
    Node_init now node_type node_id config_resource name status start_time
      task_index relaunch_count critical max_relaunch_count relaunchable
      service_addr h
    = Ok (self, <[self := NodeObj n]>
                  (<[used := ResourceObj (NodeResource_init float_zero float_zero None 0)]> h)) /\
    h !! used = None /\
    h !! self = None /\
    self <> used /\
    Node.config_resource n = config_resource /\
    Node.used_resource n = used /\
    Node.task_index n = match task_index with Some i => i | None => node_id end.
Proof.
  unfold Node_init, bind, alloc.
  set (used := fresh (dom h)).
  set (h1 := <[used := _]> h).
  set (self := fresh (dom h1)).
  assert (Hne : self <> used).
  { intros E. pose proof (fresh_unused h1) as Hf. fold self in Hf. rewrite E in Hf.
    unfold h1 in Hf. rewrite lookup_insert_eq in Hf. discriminate. }
  eexists self, used, _. split; [reflexivity | ].
  split; [apply fresh_unused | ].
  split.
  { pose proof (fresh_unused h1) as Hf. fold self in Hf. unfold h1 in Hf.
    now rewrite lookup_insert_ne in Hf by congruence. }
  split; [exact Hne | ]. now repeat split.
Qed.

Lemma NodeGroupResource_update_run (h : gmap loc object) (self : loc)
    (g : NodeGroupResource.t) (r : NodeResource.t) (count : Z) (cpu memory : pynum) :
  h !! self = Some (GroupObj g) ->
  h !! NodeGroupResource.node_resource g = Some (ResourceObj r) ->
  NodeGroupResource_update self count cpu memory h =
    Ok (tt, <[NodeGroupResource.node_resource g :=
                ResourceObj (NodeResource.set_memory memory (NodeResource.set_cpu cpu r))]>
              (<[self := GroupObj (NodeGroupResource.mk count
                                     (NodeGroupResource.node_resource g)
                                     (NodeGroupResource.priority g))]> h)).
Proof.
  intros Hself Hr.
  assert (Hne : NodeGroupResource.node_resource g <> self) by (intros E; congruence).
  unfold NodeGroupResource_update, modify_resource.
  rewrite (bind_ok (get_group self) _ h g h) by (unfold get_group; now rewrite Hself).
  unfold bind at 1, put at 1.
  unfold bind at 1.
  erewrite (bind_ok (get_resource _))
    by (apply get_resource_at; rewrite lookup_insert_ne by congruence; exact Hr).
  unfold put at 1.
  erewrite bind_ok by (apply get_resource_at, lookup_insert_eq).
  unfold put. rewrite insert_insert_eq. reflexivity.
Qed.

(** X8. [Node.__init__] keeps the very object it is given as
    [config_resource]: a node built on the resource of a
    [NodeGroupResource] sees a later [NodeGroupResource.update] of that group
    in its own configured resource. *)
Theorem node_shares_group_resource (h : gmap loc object) (group : loc)
    (g : NodeGroupResource.t) (r : NodeResource.t) (now : datetime)
    (node_type : string) (node_id : Z) (name : option string) (status : NodeStatus.t)
    (start_time task_index : option Z) (relaunch_count : Z) (critical : bool)
    (max_relaunch_count : Z) (relaunchable : bool) (service_addr : option string)
    (count : Z) (cpu memory : pynum) :
  h !! group = Some (GroupObj g) ->
  h !! NodeGroupResource.node_resource g = Some (ResourceObj r) ->
  exists self h1 h2 n,
    Node_init now node_type node_id (NodeGroupResource.node_resource g) name status
      start_time task_index relaunch_count critical max_relaunch_count relaunchable
      service_addr h = Ok (self, h1) /\
    NodeGroupResource_update group count cpu memory h1 = Ok (tt, h2) /\
    h2 !! self = Some (NodeObj n) /\
    Node.config_resource n = NodeGroupResource.node_resource g /\
    h2 !! Node.config_resource n =
      Some (ResourceObj (NodeResource.set_memory memory (NodeResource.set_cpu cpu r))).
Proof.
  intros Hgroup Hr.
  destruct (Node_init_run h now node_type node_id (NodeGroupResource.node_resource g)
              name status start_time task_index relaunch_count critical
              max_relaunch_count relaunchable service_addr)
    as (self & used & n & Hrun & Hused & Hself & Hne & Hconfig & _ & _).
  set (h1 := <[self := NodeObj n]> (<[used := _]> h)) in Hrun.
  assert (K : keeps h h1).
  { eapply keeps_trans; [apply keeps_insert_new, Hused | ].
    apply keeps_insert_new. now rewrite lookup_insert_ne by congruence. }
  assert (Hgr : NodeGroupResource.node_resource g <> group) by (intros E; congruence).
  assert (Hgs : group <> self) by (intros E; congruence).
  assert (Hrs : NodeGroupResource.node_resource g <> self) by (intros E; congruence).
  eexists self, h1, _, n. split; [exact Hrun | ].
  split.
  { exact (NodeGroupResource_update_run h1 group g r count cpu memory
             (K _ _ Hgroup) (K _ _ Hr)). }
  split.
  { rewrite !lookup_insert_ne by congruence. apply lookup_insert_eq. }
  split; [exact Hconfig | ].
  rewrite Hconfig. apply lookup_insert_eq.
Qed.

(** X9. The used resource of a new node is a new object: writing observed
    usage to a node just built changes no object that existed before the
    node was built, its configured resource included. *)
Theorem new_node_usage_is_private (h : gmap loc object) (now : datetime)
    (node_type : string) (node_id : Z) (config_resource : loc)
    (name : option string) (status : NodeStatus.t) (start_time task_index : option Z)
    (relaunch_count : Z) (critical : bool) (max_relaunch_count : Z)
    (relaunchable : bool) (service_addr : option string) (cpu memory : pynum) :
  exists self h1 h2 n,
    Node_init now node_type node_id config_resource name status start_time
      task_index relaunch_count critical max_relaunch_count relaunchable
      service_addr h = Ok (self, h1) /\
    update_resource_usage self cpu memory h1 = Ok (tt, h2) /\
    h2 !! self = Some (NodeObj n) /\
    h !! Node.used_resource n = None /\
    h2 !! Node.used_resource n =
      Some (ResourceObj (NodeResource_init cpu memory None 0)) /\
    keeps h h2.
Proof.
  destruct (Node_init_run h now node_type node_id config_resource
              name status start_time task_index relaunch_count critical
              max_relaunch_count relaunchable service_addr)
    as (self & used & n & Hrun & Hused & Hself & Hne & _ & Hu & _).
  set (h1 := <[self := NodeObj n]> (<[used := _]> h)) in Hrun.
  assert (Hn : h1 !! self = Some (NodeObj n)) by apply lookup_insert_eq.
  assert (Hu1 : h1 !! Node.used_resource n
                = Some (ResourceObj (NodeResource_init float_zero float_zero None 0))).
  { rewrite Hu. unfold h1. rewrite lookup_insert_ne by congruence. apply lookup_insert_eq. }
  eexists self, h1, _, n. split; [exact Hrun | ].
  split; [exact (update_resource_usage_run h1 self n _ cpu memory Hn Hu1) | ].
  rewrite Hu.
  split; [now rewrite lookup_insert_ne by congruence | ].
  split; [exact Hused | ].
  split; [apply lookup_insert_eq | ].
  intros l o Hl.
  assert (l <> used) by (intros E; congruence).
  assert (l <> self) by (intros E; congruence).
  unfold h1. now rewrite !lookup_insert_ne by congruence.
Qed.

(** ** class NodeGroupResource *)

(** X10. [NodeGroupResource.update(count, cpu, memory)] replaces the count of
    the group and the cpu and memory of its resource object in place; the
    group keeps its resource object and its priority, the resource keeps its
    accelerator type and count, image and priority, and no other object
    changes. *)
Theorem NodeGroupResource_update_effect (h : gmap loc object) (self : loc)
    (g : NodeGroupResource.t) (r : NodeResource.t) (count : Z) (cpu memory : pynum) :
  h !! self = Some (GroupObj g) ->
  h !! NodeGroupResource.node_resource g = Some (ResourceObj r) ->
  exists h' g' r',
    NodeGroupResource_update self count cpu memory h = Ok (tt, h') /\
    h' !! self = Some (GroupObj g') /\
    NodeGroupResource.count g' = count /\
    NodeGroupResource.node_resource g' = NodeGroupResource.node_resource g /\
    NodeGroupResource.priority g' = NodeGroupResource.priority g /\
    h' !! NodeGroupResource.node_resource g = Some (ResourceObj r') /\
    NodeResource.cpu r' = cpu /\
    NodeResource.memory r' = memory /\
    NodeResource.gpu_type r' = NodeResource.gpu_type r /\
    NodeResource.gpu_num r' = NodeResource.gpu_num r /\
    NodeResource.image r' = NodeResource.image r /\
    NodeResource.priority r' = NodeResource.priority r /\
    (forall l, l <> self -> l <> NodeGroupResource.node_resource g -> h' !! l = h !! l).
Proof.
  intros Hself Hr.
  assert (Hne : NodeGroupResource.node_resource g <> self) by (intros E; congruence).
  eexists _, _, _.
  split; [exact (NodeGroupResource_update_run h self g r count cpu memory Hself Hr) | ].
  split; [rewrite lookup_insert_ne by exact Hne; apply lookup_insert_eq | ].
  simpl. repeat (split; [reflexivity | ]).
  split; [apply lookup_insert_eq | ].
  simpl. repeat (split; [reflexivity | ]).
  intros l Hl1 Hl2. now rewrite !lookup_insert_ne by congruence.
Qed.

(** X11. [NodeGroupResource.new_empty()] builds a group of count 0 on a new
    resource object with [cpu = 0] and [memory = 0]: two empty groups share
    no resource, so updating one leaves the other's resource at zero. *)
Theorem new_empty_groups_are_separate (h : gmap loc object) (count : Z)
    (cpu memory : pynum) :
  exists group1 h1 group2 h2 g1 g2 h3,
    new_empty h = Ok (group1, h1) /\
    new_empty h1 = Ok (group2, h2) /\
    h2 !! group1 = Some (GroupObj g1) /\
    h2 !! group2 = Some (GroupObj g2) /\
    NodeGroupResource.count g1 = 0 /\
    NodeGroupResource.count g2 = 0 /\
    NodeGroupResource.node_resource g1 <> NodeGroupResource.node_resource g2 /\
    h !! NodeGroupResource.node_resource g1 = None /\
    h2 !! NodeGroupResource.node_resource g1 =
      Some (ResourceObj (NodeResource_init (PyInt 0) (PyInt 0) None 0)) /\
    NodeGroupResource_update group1 count cpu memory h2 = Ok (tt, h3) /\
    h3 !! NodeGroupResource.node_resource g1 =
      Some (ResourceObj (NodeResource_init cpu memory None 0)) /\
    h3 !! NodeGroupResource.node_resource g2 =
      Some (ResourceObj (NodeResource_init (PyInt 0) (PyInt 0) None 0)).
Proof.
  unfold new_empty, NodeGroupResource_init, bind, alloc.
  set (zero := ResourceObj (NodeResource_init (PyInt 0) (PyInt 0) None 0)).
  set (r1 := fresh (dom h)). set (ha := <[r1 := zero]> h).
  set (group1 := fresh (dom ha)).
  set (g1 := NodeGroupResource.mk 0 r1 None).
  set (h1 := <[group1 := GroupObj g1]> ha).
  set (r2 := fresh (dom h1)). set (hb := <[r2 := zero]> h1).
  set (group2 := fresh (dom hb)).
  set (g2 := NodeGroupResource.mk 0 r2 None).
  set (h2 := <[group2 := GroupObj g2]> hb).
  assert (F1 : h !! r1 = None) by apply fresh_unused.
  assert (F2 : ha !! group1 = None) by apply fresh_unused.
  assert (F3 : h1 !! r2 = None) by apply fresh_unused.
  assert (F4 : hb !! group2 = None) by apply fresh_unused.
  assert (N1 : group1 <> r1).
  { intros E. rewrite E in F2. unfold ha in F2. now rewrite lookup_insert_eq in F2. }
  assert (N2 : r2 <> group1).
  { intros E. rewrite E in F3. unfold h1 in F3. now rewrite lookup_insert_eq in F3. }
  assert (N3 : r2 <> r1).
  { intros E. rewrite E in F3. unfold h1, ha in F3.
    rewrite lookup_insert_ne in F3 by congruence. now rewrite lookup_insert_eq in F3. }
  assert (N4 : group2 <> r2).
  { intros E. rewrite E in F4. unfold hb in F4. now rewrite lookup_insert_eq in F4. }
  assert (N5 : group2 <> group1).
  { intros E. rewrite E in F4. unfold hb, h1 in F4.
    rewrite lookup_insert_ne in F4 by congruence. now rewrite lookup_insert_eq in F4. }
  assert (N6 : group2 <> r1).
  { intros E. rewrite E in F4. unfold hb, h1, ha in F4.
    rewrite !lookup_insert_ne in F4 by congruence. now rewrite lookup_insert_eq in F4. }
  assert (G1 : h2 !! group1 = Some (GroupObj g1)).
  { unfold h2, hb. rewrite !lookup_insert_ne by congruence. apply lookup_insert_eq. }
  assert (R1 : h2 !! r1 = Some zero).
  { unfold h2, hb, h1. rewrite !lookup_insert_ne by congruence. apply lookup_insert_eq. }
  eexists group1, h1, group2, h2, g1, g2, _.
  split; [reflexivity | ]. split; [reflexivity | ].
  split; [exact G1 | ].
  split; [apply lookup_insert_eq | ].
  split; [reflexivity | ]. split; [reflexivity | ].
  split; [simpl; congruence | ].
  split; [exact F1 | ].
  split; [exact R1 | ].
  split; [exact (NodeGroupResource_update_run h2 group1 g1 _ count cpu memory G1 R1) | ].
  simpl. split; [apply lookup_insert_eq | ].
  rewrite !lookup_insert_ne by congruence.
  unfold h2. rewrite lookup_insert_ne by congruence. apply lookup_insert_eq.
Qed.

(** ** update_info *)

(** X12. [update_info] replaces the name, the start time and the creation
    time that are given and leaves the others: an attribute that is set can
    be replaced but never cleared by it, a call without arguments changes
    nothing, and no call changes the status, the relaunch counters, the exit
    reason, the finish time or another object. *)
Theorem update_info_effect (h : gmap loc object) (self : loc) (n : Node.t)
    (name : option string) (start_time : option Z) (create_time : option datetime) :
  h !! self = Some (NodeObj n) ->
  exists n',
    update_info self name start_time create_time h = Ok (tt, <[self := NodeObj n']> h) /\
    Node.name n' = match name with Some v => Some v | None => Node.name n end /\
    Node.start_time n' =
      match start_time with Some v => Some v | None => Node.start_time n end /\
    Node.create_time n' =
      match create_time with Some v => v | None => Node.create_time n end /\
    (is_Some (Node.name n) -> is_Some (Node.name n')) /\
    (is_Some (Node.start_time n) -> is_Some (Node.start_time n')) /\
    Node.status n' = Node.status n /\
    Node.relaunch_count n' = Node.relaunch_count n /\
    Node.max_relaunch_count n' = Node.max_relaunch_count n /\
    Node.exit_reason n' = Node.exit_reason n /\
    Node.finish_time n' = Node.finish_time n /\
    Node.is_released n' = Node.is_released n /\
    (name = None -> start_time = None -> create_time = None ->
     <[self := NodeObj n']> h = h).
Proof.
  intros Hself.
  exists (update_info_result name start_time create_time n).
  split; [now apply update_info_run | ].
  unfold update_info_result.
  destruct name, start_time, create_time; simpl;
    repeat (split; [first [reflexivity | intros; eauto] | ]); intros; try discriminate.
  now apply insert_id.
Qed.

(** * Further properties of the resource parser *)

(** ** Repeated keys *)

Lemma fill_resource_get_last (before after : list string) (value : string) :
  forall (acc res : list (string * string)),
    token_key value ∉ map token_key after ->
    fill_resource (before ++ value :: after)%list acc = Ok res ->
    exists text,
      token_value value = Some text /\
      Dict.get (token_key value) res = Some text.
Proof.
  intros acc res Hlast Hfill.
  rewrite fill_resource_app in Hfill.
  apply pybind_inv in Hfill as (d0 & _ & Hfill).
  rewrite fill_resource_step in Hfill.
  destruct (token_value value) as [text | ]; [ | discriminate].
  exists text. split; [reflexivity | ].
  rewrite (fill_resource_absent _ _ _ _ Hlast Hfill).
  rewrite get_setitem. now rewrite decide_True.
Qed.

(** X13. When a key is given more than once, the last token that carries it
    decides: [cpu] is [float] of the value of the last ["cpu"] token, and
    [memory] is [float] of the value of the last ["memory"] token without its
    last two characters. *)
Theorem last_token_wins (s : string) (r : NodeResource.t)
    (before : list string) (value : string) (after : list string) :
  resource_str_to_node_resource (ArgStr s) = Ok r ->
  tokens_of s = (before ++ value :: after)%list ->
  token_key value ∉ map token_key after ->
  (token_key value = "cpu" ->
   exists text f,
     token_value value = Some text /\
     Num.float_of_str text = Ok f /\
     NodeResource.cpu r = PyFloat f) /\
  (token_key value = "memory" ->
   exists text f,
     token_value value = Some text /\
     Num.float_of_str (Str.slice text (Some 0) (Some (-2))) = Ok f /\
     NodeResource.memory r = PyFloat f).
Proof.
  intros Hparse Htok Hlast.
  destruct (decide (s = EmptyString)) as [-> | Hs].
  { change (tokens_of EmptyString) with [EmptyString] in Htok.
    assert (value = EmptyString).
    { destruct before as [ | b before]; [now injection Htok | ].
      injection Htok as _ Htok. now destruct before. }
    subst value. split; discriminate. }
  rewrite resource_str_text in Hparse by exact Hs.
  apply resource_of_text_inv in Hparse
    as (resource & memory & cpu & gpu & Hfill & Hmem & Hcpu & _ & ->).
  rewrite Htok in Hfill.
  destruct (fill_resource_get_last _ _ _ _ _ Hlast Hfill) as (text & Hv & Hget).
  simpl. split; intros Hkey; rewrite Hkey in Hget.
  - exists text, cpu. split; [exact Hv | ]. split; [ | reflexivity].
    unfold Dict.get_default in Hcpu. now rewrite Hget in Hcpu.
  - exists text, memory. split; [exact Hv | ]. split; [ | reflexivity].
    unfold Dict.get_default in Hmem. now rewrite Hget in Hmem.
Qed.

(** ** Surrounding whitespace *)

Lemma lstrip_head (p : ascii -> bool) (s : string) :
  Str.lstrip p s = EmptyString \/
  exists c t, Str.lstrip p s = String c t /\ p c = false.
Proof.
  induction s as [ | a s IH]; simpl; [now left | ].
  destruct (p a) eqn:Ha; [exact IH | right]. now exists a, s.
Qed.

Lemma rstrip_head (p : ascii -> bool) (c : ascii) (t : string) :
  p c = false -> exists t', Str.rstrip p (String c t) = String c t'.
Proof.
  intros Hc. simpl. destruct (Str.rstrip p t) as [ | d y].
  - rewrite Hc. now eexists.
  - now eexists.
Qed.

Lemma rstrip_idem (p : ascii -> bool) (s : string) :
  Str.rstrip p (Str.rstrip p s) = Str.rstrip p s.
Proof.
  induction s as [ | c s IH]; simpl; [reflexivity | ].
  destruct (Str.rstrip p s) as [ | d y] eqn:Hx.
  - destruct (p c) eqn:Hc; [reflexivity | ]. simpl. now rewrite Hc.
  - cbn [Str.rstrip]. cbn [Str.rstrip] in IH. now rewrite IH.
Qed.

Lemma strip_idem (s : string) : Str.strip (Str.strip s) = Str.strip s.
Proof.
  unfold Str.strip.
  destruct (lstrip_head Str.is_space s) as [Hnil | (c & t & Hcons & Hc)].
  - rewrite Hnil. reflexivity.
  - rewrite Hcons.
    destruct (rstrip_head Str.is_space c t Hc) as (t' & Ht').
    rewrite Ht' at 1.
    cbn [Str.lstrip]. rewrite Hc. rewrite <- Ht'. apply rstrip_idem.
Qed.

Lemma split_no_sep (sep : ascii) (s : string) :
  Str.has_char sep s = false -> Str.split sep s = [s].
Proof.
  induction s as [ | a s IH]; simpl; [reflexivity | ].
  intros H. apply orb_false_iff in H as [Ha Hs].
  rewrite Ha. now rewrite (IH Hs).
Qed.

(** A token without ["="] stops the first loop. *)
Lemma fill_resource_missing_value (tokens : list string) :
  Exists (fun value => Str.has_char "=" value = false) tokens ->
  forall acc, fill_resource tokens acc = Raise IndexError.
Proof.
  induction 1 as [value rest Hvalue | value rest _ IH]; intros acc;
    rewrite fill_resource_step.
  - unfold token_value. now rewrite (split_no_sep _ _ Hvalue).
  - destruct (token_value value); [apply IH | reflexivity].
Qed.

(** X14. Whitespace around the whole text is dropped before anything else:
    a text and its stripped form have the same tokens and, when the stripped
    form is not empty, the same result. A non-empty text of whitespace only
    is not read as the empty text: it raises [IndexError]. *)
Theorem surrounding_whitespace (s : string) :
  tokens_of (Str.strip s) = tokens_of s /\
  (Str.strip s <> EmptyString ->
   resource_str_to_node_resource (ArgStr (Str.strip s))
     = resource_str_to_node_resource (ArgStr s)) /\
  (s <> EmptyString -> Str.strip s = EmptyString ->
   resource_str_to_node_resource (ArgStr s) = Raise IndexError).
Proof.
  assert (Htok : tokens_of (Str.strip s) = tokens_of s).
  { unfold tokens_of. now rewrite strip_idem. }
  split; [exact Htok | ]. split.
  - intros Hne.
    assert (Hs : s <> EmptyString) by (intros ->; now apply Hne).
    rewrite !resource_str_text by assumption.
    unfold resource_of_text. now rewrite Htok.
  - intros Hs Hblank. rewrite resource_str_text by exact Hs.
    unfold resource_of_text, tokens_of. rewrite Hblank. reflexivity.
Qed.

(** ** Tokens without a value *)

(** X15. The call raises [IndexError] exactly when the text is not empty and
    one of its tokens has no ["="]; every other error of the call is a
    [ValueError]. *)
Theorem index_error_iff (s : string) :
  (resource_str_to_node_resource (ArgStr s) = Raise IndexError <->
   s <> EmptyString /\
   Exists (fun value => Str.has_char "=" value = false) (tokens_of s)) /\
  (forall e, resource_str_to_node_resource (ArgStr s) = Raise e ->
             e = IndexError \/ e = ValueError).
Proof.
  assert (Hkinds : forall e, resource_str_to_node_resource (ArgStr s) = Raise e ->
            s <> EmptyString /\
            (e = IndexError /\
               Exists (fun value => Str.has_char "=" value = false) (tokens_of s) \/
             e = ValueError)).
  { intros e Hraise.
    destruct (decide (s = EmptyString)) as [-> | Hs]; [discriminate | ].
    split; [exact Hs | ].
    rewrite resource_str_text in Hraise by exact Hs.
    unfold resource_of_text in Hraise.
    destruct (fill_resource (tokens_of s) []) as [resource | e1] eqn:Hfill; simpl in Hraise.
    2:{ injection Hraise as <-. left. now apply (fill_resource_raises _ []). }
    destruct (Num.float_of_str (Str.slice _ _ _)) as [f | e2] eqn:Hmem; simpl in Hraise.
    2:{ injection Hraise as <-. right. now apply float_of_str_raises in Hmem. }
    destruct (Num.float_of_str (Dict.get_default "cpu" "0" resource)) as [c | e3] eqn:Hcpu;
      simpl in Hraise.
    2:{ injection Hraise as <-. right. now apply float_of_str_raises in Hcpu. }
    destruct (scan_gpu resource resource (None, 0)) as [g | e4] eqn:Hgpu; simpl in Hraise;
      [discriminate | ].
    injection Hraise as <-. right.
    now apply (scan_gpu_raises resource resource (None, 0)). }
  split.
  - split.
    + intros Hraise. destruct (Hkinds _ Hraise) as [Hs [[_ Hex] | Hbad]];
        [now split | discriminate].
    + intros [Hs Hex]. rewrite resource_str_text by exact Hs.
      unfold resource_of_text. now rewrite (fill_resource_missing_value _ Hex).
  - intros e Hraise. destruct (Hkinds _ Hraise) as [_ [[-> _] | ->]]; [now left | now right].
Qed.

(** ** Short and unit-less memory amounts *)

Lemma slice_short (s : string) :
  (String.length s <= 2)%nat -> Str.slice s (Some 0) (Some (-2)) = EmptyString.
Proof.
  intros Hlen. unfold Str.slice, Str.clamp.
  change (0 <? 0) with false. change (-2 <? 0) with true. cbv iota.
  replace (Z.to_nat (Z.max (-2 + Z.of_nat (String.length s)) 0
                     - Z.min 0 (Z.of_nat (String.length s)))) with 0%nat by lia.
  now destruct (Str.drop _ s).
Qed.

(** X16. [convert_memory_to_mb] reads the last two characters as the unit
    even when there is nothing else: a text of at most two characters (the
    empty text, ["Gi"], ["5"], ["64"]) raises [ValueError]. *)
Theorem convert_memory_to_mb_short (memory : string) :
  (String.length memory <= 2)%nat ->
  convert_memory_to_mb memory = Raise ValueError.
Proof.
  intros Hlen. unfold convert_memory_to_mb. now rewrite (slice_short memory Hlen).
Qed.

Lemma convert_memory_to_mb_short_witness :
  (String.length "64" <= 2)%nat /\ convert_memory_to_mb "64" = Raise ValueError.
Proof.
  assert (H : (String.length "64" <= 2)%nat) by (simpl; lia).
  split; [exact H | exact (convert_memory_to_mb_short "64" H)].
Defined.

Lemma token_value_some (value : string) :
  Str.has_char "=" value = true -> exists text, token_value value = Some text.
Proof.
  unfold token_value. induction value as [ | a s IH]; simpl; [discriminate | ].
  destruct (Ascii.eqb a "=") eqn:Ha; simpl.
  - intros _. destruct (split_cons "=" s) as (t & ts & ->). now exists t.
  - intros Hs. destruct (IH Hs) as (text & Htext).
    destruct (split_cons "=" s) as (t & ts & Hsplit). rewrite Hsplit in Htext |- *.
    now exists text.
Qed.

(** The first loop succeeds when every token has a ["="]. *)
Lemma fill_resource_ok (tokens : list string) :
  Forall (fun value => Str.has_char "=" value = true) tokens ->
  forall acc, exists res, fill_resource tokens acc = Ok res.
Proof.
  induction 1 as [ | value rest Hvalue _ IH]; intros acc; [now exists acc | ].
  rewrite fill_resource_step.
  destruct (token_value_some value Hvalue) as (text & ->). apply IH.
Qed.

(** X17. A memory amount of at most two characters leaves nothing before the
    unit: when every token of the text has a ["="] and the last ["memory"]
    token has a value of at most two characters (as in ["memory=5"] or
    ["memory=Mi"]), the call raises [ValueError]. *)
Theorem short_memory_amount_rejected (s : string)
    (before : list string) (value : string) (after : list string) (text : string) :
  Forall (fun value' => Str.has_char "=" value' = true) (tokens_of s) ->
  tokens_of s = (before ++ value :: after)%list ->
  token_key value = "memory" ->
  "memory" ∉ map token_key after ->
  token_value value = Some text ->
  (String.length text <= 2)%nat ->
  resource_str_to_node_resource (ArgStr s) = Raise ValueError.
Proof.
  intros Hall Htok Hkey Hlast Hv Hlen.
  assert (Hs : s <> EmptyString).
  { intros ->. change (tokens_of EmptyString) with [EmptyString] in Hall.
    apply Forall_cons in Hall as [Hbad _]. discriminate Hbad. }
  rewrite resource_str_text by exact Hs.
  unfold resource_of_text.
  destruct (fill_resource_ok _ Hall []) as (resource & Hfill).
  rewrite Hfill. simpl.
  rewrite Htok in Hfill. rewrite <- Hkey in Hlast.
  destruct (fill_resource_get_last _ _ _ _ _ Hlast Hfill) as (text' & Hv' & Hget).
  assert (text' = text) by congruence. subst text'.
  rewrite Hkey in Hget. unfold Dict.get_default. rewrite Hget.
  now rewrite (slice_short text Hlen).
Qed.

Lemma short_memory_amount_rejected_witness :
  Forall (fun value' => Str.has_char "=" value' = true) (tokens_of "cpu=2,memory=5") /\
  token_value "memory=5" = Some "5" /\
  (String.length "5" <= 2)%nat /\
  resource_str_to_node_resource (ArgStr "cpu=2,memory=5") = Raise ValueError.
Proof.
  assert (Hall : Forall (fun value' => Str.has_char "=" value' = true)
                   (tokens_of "cpu=2,memory=5")).
  { repeat constructor. }
  assert (Hlast : "memory" ∉ map token_key []) by apply not_elem_of_nil.
  assert (Hlen : (String.length "5" <= 2)%nat) by (simpl; lia).
  split; [exact Hall | ]. split; [reflexivity | ]. split; [exact Hlen | ].
  exact (short_memory_amount_rejected "cpu=2,memory=5" ["cpu=2"] "memory=5" [] "5"
           Hall eq_refl eq_refl Hlast eq_refl Hlen).
Defined.

Lemma rstrip_app_clean (p : ascii -> bool) (x : string) (b : ascii) :
  p b = false ->
  Str.rstrip p (x +:+ String b EmptyString) = x +:+ String b EmptyString.
Proof.
  intros Hb. induction x as [ | a x IH]; simpl.
  - now rewrite Hb.
  - simpl in IH. rewrite IH. now destruct x.
Qed.

Lemma str_app_assoc (x y z : string) : x +:+ (y +:+ z) = (x +:+ y) +:+ z.
Proof.
  induction x as [ | c x IH]; [reflexivity | ].
  change (String c (x +:+ (y +:+ z)) = String c ((x +:+ y) +:+ z)).
  now rewrite IH.
Qed.

(** X18. The parser drops the last two characters of the memory text whatever
    they are. For a text ["memory=" + amount + a + b] without comma or further
    ["="], where [b] is no whitespace, the result is [float(amount)] as
    memory, with [cpu = 0.0] and no accelerator; so ["memory=100"], with no
    unit, gives [memory = 1.0]. *)
Theorem memory_text_loses_two_characters (amount : string) (a b : ascii) :
  Str.is_space b = false ->
  Str.has_char "," (amount +:+ String a (String b EmptyString)) = false ->
  Str.has_char "=" (amount +:+ String a (String b EmptyString)) = false ->
  resource_str_to_node_resource
    (ArgStr ("memory=" +:+ amount +:+ String a (String b EmptyString))) =
  (do m <- Num.float_of_str amount;
   Ok (NodeResource_init (PyFloat (S754_zero false)) (PyFloat m) None 0)).
Proof.
  intros Hb Hcomma Heq.
  remember (amount +:+ String a (String b EmptyString)) as rest eqn:Hrest.
  assert (Hstrip : Str.strip ("memory=" +:+ rest) = "memory=" +:+ rest).
  { unfold Str.strip. change (Str.lstrip Str.is_space ("memory=" +:+ rest))
      with ("memory=" +:+ rest).
    rewrite Hrest.
    replace ("memory=" +:+ amount +:+ String a (String b EmptyString))
      with (("memory=" +:+ amount +:+ String a EmptyString) +:+ String b EmptyString).
    - now apply rstrip_app_clean.
    - change ("memory=" +:+ amount +:+ String a EmptyString)
        with ("memory=" +:+ (amount +:+ String a EmptyString)).
      rewrite <- !str_app_assoc. reflexivity. }
  assert (Htokens : tokens_of ("memory=" +:+ rest) = ["memory=" +:+ rest]).
  { unfold tokens_of. rewrite Hstrip. apply split_no_sep.
    change (Str.has_char "," ("memory=" +:+ rest)) with (Str.has_char "," rest).
    exact Hcomma. }
  assert (Hsplit : Str.split "=" ("memory=" +:+ rest) = ["memory"; rest]).
  { simpl. change (EmptyString +:+ rest) with rest. now rewrite (split_no_sep _ _ Heq). }
  change (resource_str_to_node_resource (ArgStr ("memory=" +:+ rest)))
    with (resource_of_text ("memory=" +:+ rest)).
  unfold resource_of_text. rewrite Htokens.
  cbn [fill_resource]. rewrite Hsplit.
  change (index ["memory"; rest] 1) with (Ok (A := string) rest).
  change (index ["memory"; rest] 0) with (Ok (A := string) "memory").
  cbn [pybind Dict.setitem].
  change (Dict.get_default "memory" "0Mi" [("memory", rest)]) with rest.
  change (Dict.get_default "cpu" "0" [("memory", rest)]) with "0".
  subst rest. rewrite slice_prefix by reflexivity.
  destruct (Num.float_of_str amount) as [m | e]; [ | reflexivity].
  reflexivity.
Qed.

Lemma memory_text_loses_two_characters_witness :
  Str.is_space "0" = false /\
  resource_str_to_node_resource (ArgStr "memory=100") =
    Ok (NodeResource_init (PyFloat (S754_zero false))
          (PyFloat (S754_finite false 4503599627370496 (-52))) None 0).
Proof.
  split; [reflexivity | ].
  exact (memory_text_loses_two_characters "1" "0" "0" eq_refl eq_refl eq_refl).
Defined.

(** ** The wire map of any instance *)

Section WireMapEntries.
Variable float_repr : spec_float -> string.


End WireMapEntries.


(** ** The properties at the sample stores *)

Lemma inc_relaunch_count_budget_witness :
  sample_store !! 3%positive = Some (NodeObj sample_node) /\
  sample_store !! Node.used_resource sample_node = Some (ResourceObj sample_used) /\
  exists h',
    inc_relaunch_count_times 2 3%positive sample_store = Ok (tt, h') /\
    h' !! 3%positive = Some (NodeObj (Node.set_relaunch_count 2 sample_node)) /\
    is_unrecoverable_failure "Error" (PyInt 65536) 3%positive h' = Ok (true, h').
Proof.
  assert (H1 : sample_store !! 3%positive = Some (NodeObj sample_node)) by reflexivity.
  assert (H2 : sample_store !! Node.used_resource sample_node
               = Some (ResourceObj sample_used)) by reflexivity.
  split; [exact H1 | ]. split; [exact H2 | ].
  destruct (inc_relaunch_count_budget "Error" (PyInt 65536) 2 sample_store 3%positive
              sample_node sample_used H1 H2) as (h' & Hrun & Hnode & _ & Hverdict).
  exists h'. split; [exact Hrun | ]. split; [exact Hnode | exact Hverdict].
Defined.

Lemma unrecoverable_stays_witness :
  rewrites_failure_inputs (Call_update_status (Some NodeStatus.RUNNING)) = false /\
  is_unrecoverable_failure "Error" (PyInt 65536) 3%positive sample_store
    = Ok (true, sample_store) /\
  exists h',
    run_call "Error" (PyInt 65536) (Call_update_status (Some NodeStatus.RUNNING))
      3%positive sample_store = Ok (tt, h') /\
    is_unrecoverable_failure "Error" (PyInt 65536) 3%positive h' = Ok (true, h').
Proof.
  assert (H1 : rewrites_failure_inputs (Call_update_status (Some NodeStatus.RUNNING))
               = false) by reflexivity.
  assert (H2 : is_unrecoverable_failure "Error" (PyInt 65536) 3%positive sample_store
               = Ok (true, sample_store)) by reflexivity.
  split; [exact H1 | ]. split; [exact H2 | ].
  eexists. split; [reflexivity | ].
  exact (unrecoverable_stays "Error" (PyInt 65536)
           (Call_update_status (Some NodeStatus.RUNNING)) sample_store _ 3%positive tt
           H1 H2 eq_refl).
Defined.

Lemma update_resource_usage_effect_witness :
  sample_store !! 3%positive = Some (NodeObj sample_node) /\
  sample_store !! Node.used_resource sample_node = Some (ResourceObj sample_used) /\
  exists h',
    update_resource_usage 3%positive (PyInt 1) (PyInt 70000) sample_store = Ok (tt, h') /\
    h' !! 3%positive = Some (NodeObj sample_node).
Proof.
  assert (H1 : sample_store !! 3%positive = Some (NodeObj sample_node)) by reflexivity.
  assert (H2 : sample_store !! Node.used_resource sample_node
               = Some (ResourceObj sample_used)) by reflexivity.
  split; [exact H1 | ]. split; [exact H2 | ].
  destruct (update_resource_usage_effect "Error" (PyInt 65536) sample_store 3%positive
              sample_node sample_used (PyInt 1) (PyInt 70000) H1 H2) as (Hrun & Hnode & _).
  eexists. split; [exact Hrun | exact Hnode].
Defined.

Lemma set_exit_reason_effect_witness :
  sample_store !! 3%positive = Some (NodeObj sample_node) /\
  sample_store !! Node.used_resource sample_node = Some (ResourceObj sample_used) /\
  exists h',
    set_exit_reason 3%positive (Some "Error") sample_store = Ok (tt, h') /\
    is_unrecoverable_failure "Error" (PyInt 65536) 3%positive h' = Ok (true, h').
Proof.
  assert (H1 : sample_store !! 3%positive = Some (NodeObj sample_node)) by reflexivity.
  assert (H2 : sample_store !! Node.used_resource sample_node
               = Some (ResourceObj sample_used)) by reflexivity.
  split; [exact H1 | ]. split; [exact H2 | ].
  destruct (set_exit_reason_effect "Error" (PyInt 65536) sample_store 3%positive
              sample_node sample_used (Some "Error") H1 H2) as (Hrun & _ & Hfatal).
  eexists. split; [exact Hrun | exact (Hfatal eq_refl)].
Defined.

Lemma successor_same_verdict_witness :
  sample_store !! 3%positive = Some (NodeObj sample_node) /\
  sample_store !! Node.config_resource sample_node = Some (ResourceObj sample_config) /\
  sample_store !! Node.used_resource sample_node = Some (ResourceObj sample_used) /\
  exists new_node h' b,
    get_relaunch_node_info 3%positive 7 sample_store = Ok (new_node, h') /\
    is_unrecoverable_failure "Error" (PyInt 65536) 3%positive sample_store
      = Ok (b, sample_store) /\
    is_unrecoverable_failure "Error" (PyInt 65536) new_node h' = Ok (b, h').
Proof.
  assert (H1 : sample_store !! 3%positive = Some (NodeObj sample_node)) by reflexivity.
  assert (H2 : sample_store !! Node.config_resource sample_node
               = Some (ResourceObj sample_config)) by reflexivity.
  assert (H3 : sample_store !! Node.used_resource sample_node
               = Some (ResourceObj sample_used)) by reflexivity.
  split; [exact H1 | ]. split; [exact H2 | ]. split; [exact H3 | ].
  exact (successor_same_verdict "Error" (PyInt 65536) sample_store 3%positive
           sample_node sample_config sample_used 7 H1 H2 H3).
Defined.

Lemma successor_usage_independent_witness :
  sample_store !! 3%positive = Some (NodeObj sample_node) /\
  sample_store !! Node.config_resource sample_node = Some (ResourceObj sample_config) /\
  sample_store !! Node.used_resource sample_node = Some (ResourceObj sample_used) /\
  exists new_node h' h'',
    get_relaunch_node_info 3%positive 7 sample_store = Ok (new_node, h') /\
    update_resource_usage new_node (PyInt 1) (PyInt 70000) h' = Ok (tt, h'') /\
    h'' !! 3%positive = Some (NodeObj sample_node) /\
    h'' !! 2%positive = Some (ResourceObj sample_used).
Proof.
  assert (H1 : sample_store !! 3%positive = Some (NodeObj sample_node)) by reflexivity.
  assert (H2 : sample_store !! Node.config_resource sample_node
               = Some (ResourceObj sample_config)) by reflexivity.
  assert (H3 : sample_store !! Node.used_resource sample_node
               = Some (ResourceObj sample_used)) by reflexivity.
  split; [exact H1 | ]. split; [exact H2 | ]. split; [exact H3 | ].
  destruct (successor_usage_independent sample_store 3%positive sample_node
              sample_config sample_used 7 (PyInt 1) (PyInt 70000) H1 H2 H3)
    as (new_node & h' & n' & Hrun & _ & (h'' & Hwrite & Hnode & _ & Hused) & _).
  exists new_node, h', h''.
  split; [exact Hrun | ]. split; [exact Hwrite | ]. split; [exact Hnode | exact Hused].
Defined.

Lemma successor_carries_over_witness :
  sample_store !! 3%positive = Some (NodeObj sample_node) /\
  sample_store !! Node.config_resource sample_node = Some (ResourceObj sample_config) /\
  sample_store !! Node.used_resource sample_node = Some (ResourceObj sample_used) /\
  exists new_node h' n',
    get_relaunch_node_info 3%positive 7 sample_store = Ok (new_node, h') /\
    h' !! new_node = Some (NodeObj n') /\
    Node.exit_reason n' = None /\
    Node.create_time n' = 0 /\
    h' !! Node.used_resource n' = Some (ResourceObj sample_used).
Proof.
  assert (H1 : sample_store !! 3%positive = Some (NodeObj sample_node)) by reflexivity.
  assert (H2 : sample_store !! Node.config_resource sample_node
               = Some (ResourceObj sample_config)) by reflexivity.
  assert (H3 : sample_store !! Node.used_resource sample_node
               = Some (ResourceObj sample_used)) by reflexivity.
  split; [exact H1 | ]. split; [exact H2 | ]. split; [exact H3 | ].
  destruct (successor_carries_over sample_store 3%positive sample_node
              sample_config sample_used 7 H1 H2 H3)
    as (new_node & h' & n' & Hrun & Hnew & Hexit & _ & _ & Hcreate & _ & _ & Hused & _).
  exists new_node, h', n'.
  split; [exact Hrun | ]. split; [exact Hnew | ]. split; [exact Hexit | ].
  split; [exact Hcreate | exact Hused].
Defined.

Lemma node_shares_group_resource_witness :
  sample_group_store !! 4%positive = Some (GroupObj sample_group) /\
  sample_group_store !! NodeGroupResource.node_resource sample_group
    = Some (ResourceObj sample_config) /\
  exists self h1 h2 n,
    Node_init 0 "worker" 1 1%positive None NodeStatus.INITIAL None None 0 false 3 true
      None sample_group_store = Ok (self, h1) /\
    NodeGroupResource_update 4%positive 5 (PyInt 8) (PyInt 16384) h1 = Ok (tt, h2) /\
    h2 !! self = Some (NodeObj n) /\
    h2 !! Node.config_resource n =
      Some (ResourceObj (NodeResource_init (PyInt 8) (PyInt 16384) None 0)).
Proof.
  assert (H1 : sample_group_store !! 4%positive = Some (GroupObj sample_group))
    by reflexivity.
  assert (H2 : sample_group_store !! NodeGroupResource.node_resource sample_group
               = Some (ResourceObj sample_config)) by reflexivity.
  split; [exact H1 | ]. split; [exact H2 | ].
  destruct (node_shares_group_resource sample_group_store 4%positive sample_group
              sample_config 0 "worker" 1 None NodeStatus.INITIAL None None 0 false 3 true
              None 5 (PyInt 8) (PyInt 16384) H1 H2)
    as (self & h1 & h2 & n & Hinit & Hupdate & Hnode & _ & Hconfig).
  exists self, h1, h2, n.
  split; [exact Hinit | ]. split; [exact Hupdate | ]. split; [exact Hnode | exact Hconfig].
Defined.

Lemma NodeGroupResource_update_effect_witness :
  sample_group_store !! 4%positive = Some (GroupObj sample_group) /\
  sample_group_store !! NodeGroupResource.node_resource sample_group
    = Some (ResourceObj sample_config) /\
  exists h' g' r',
    NodeGroupResource_update 4%positive 5 (PyInt 8) (PyInt 16384) sample_group_store
      = Ok (tt, h') /\
    h' !! 4%positive = Some (GroupObj g') /\
    NodeGroupResource.count g' = 5 /\
    h' !! 1%positive = Some (ResourceObj r') /\
    NodeResource.cpu r' = PyInt 8 /\
    NodeResource.memory r' = PyInt 16384 /\
    h' !! 3%positive = Some (NodeObj sample_node).
Proof.
  assert (H1 : sample_group_store !! 4%positive = Some (GroupObj sample_group))
    by reflexivity.
  assert (H2 : sample_group_store !! NodeGroupResource.node_resource sample_group
               = Some (ResourceObj sample_config)) by reflexivity.
  split; [exact H1 | ]. split; [exact H2 | ].
  destruct (NodeGroupResource_update_effect sample_group_store 4%positive sample_group
              sample_config 5 (PyInt 8) (PyInt 16384) H1 H2)
    as (h' & g' & r' & Hrun & Hgroup & Hcount & _ & _ & Hres & Hcpu & Hmem & _ & _ & _
        & _ & Hother).
  exists h', g', r'.
  split; [exact Hrun | ]. split; [exact Hgroup | ]. split; [exact Hcount | ].
  split; [exact Hres | ]. split; [exact Hcpu | ]. split; [exact Hmem | ].
  transitivity (sample_group_store !! 3%positive); [ | reflexivity].
  apply Hother; discriminate.
Defined.

Lemma update_info_effect_witness :
  sample_store !! 3%positive = Some (NodeObj sample_node) /\
  exists n',
    update_info 3%positive None (Some 12) None sample_store
      = Ok (tt, <[3%positive := NodeObj n']> sample_store) /\
    Node.name n' = Some "worker-0" /\
    Node.start_time n' = Some 12 /\
    Node.status n' = NodeStatus.FAILED.
Proof.
  assert (H1 : sample_store !! 3%positive = Some (NodeObj sample_node)) by reflexivity.
  split; [exact H1 | ].
  destruct (update_info_effect sample_store 3%positive sample_node None (Some 12) None H1)
    as (n' & Hrun & Hname & Hstart & _ & _ & _ & Hstatus & _).
  exists n'. split; [exact Hrun | ]. split; [exact Hname | ].
  split; [exact Hstart | exact Hstatus].
Defined.

Lemma last_token_wins_witness :
  resource_str_to_node_resource (ArgStr "cpu=1,cpu=2")
    = Ok (NodeResource_init (PyFloat (S754_finite false 4503599627370496 (-51)))
            (PyFloat (S754_zero false)) None 0) /\
  tokens_of "cpu=1,cpu=2" = (["cpu=1"] ++ "cpu=2" :: [])%list /\
  (token_key "cpu=2" ∉ map token_key []) /\
  exists text f,
    token_value "cpu=2" = Some text /\
    Num.float_of_str text = Ok f /\
    PyFloat (S754_finite false 4503599627370496 (-51)) = PyFloat f.
Proof.
  assert (H1 : resource_str_to_node_resource (ArgStr "cpu=1,cpu=2")
               = Ok (NodeResource_init (PyFloat (S754_finite false 4503599627370496 (-51)))
                       (PyFloat (S754_zero false)) None 0))
    by (vm_compute; reflexivity).
  assert (H2 : tokens_of "cpu=1,cpu=2" = (["cpu=1"] ++ "cpu=2" :: [])%list) by reflexivity.
  assert (H3 : token_key "cpu=2" ∉ map token_key []) by apply not_elem_of_nil.
  split; [exact H1 | ]. split; [exact H2 | ]. split; [exact H3 | ].
  exact (proj1 (last_token_wins "cpu=1,cpu=2" _ ["cpu=1"] "cpu=2" [] H1 H2 H3) eq_refl).
Defined.

Lemma surrounding_whitespace_witness :
  Str.strip " cpu=1 " <> EmptyString /\
  resource_str_to_node_resource (ArgStr (Str.strip " cpu=1 "))
    = resource_str_to_node_resource (ArgStr " cpu=1 ") /\
  " " <> EmptyString /\
  Str.strip " " = EmptyString /\
  resource_str_to_node_resource (ArgStr " ") = Raise IndexError.
Proof.
  assert (H1 : Str.strip " cpu=1 " <> EmptyString) by discriminate.
  assert (H2 : " " <> EmptyString) by discriminate.
  assert (H3 : Str.strip " " = EmptyString) by reflexivity.
  split; [exact H1 | ].
  split; [exact (proj1 (proj2 (surrounding_whitespace " cpu=1 ")) H1) | ].
  split; [exact H2 | ]. split; [exact H3 | ].
  exact (proj2 (proj2 (surrounding_whitespace " ")) H2 H3).
Defined.

Lemma index_error_iff_witness :
  "cpu=1,gpu" <> EmptyString /\
  Exists (fun value => Str.has_char "=" value = false) (tokens_of "cpu=1,gpu") /\
  resource_str_to_node_resource (ArgStr "cpu=1,gpu") = Raise IndexError.
Proof.
  assert (H1 : "cpu=1,gpu" <> EmptyString) by discriminate.
  assert (H2 : Exists (fun value => Str.has_char "=" value = false)
                 (tokens_of "cpu=1,gpu")).
  { apply Exists_cons_tl, Exists_cons_hd. reflexivity. }
  split; [exact H1 | ]. split; [exact H2 | ].
  exact (proj2 (proj1 (index_error_iff "cpu=1,gpu")) (conj H1 H2)).
Defined.

(** ** Sequences of status updates *)

Lemma set_status_same (n : Node.t) : Node.set_status (Node.status n) n = n.
Proof. now destruct n. Qed.

(** X20. After any sequence of [update_status] calls the status is the last
    one given that is not [None], the status before when there is none; no
    other attribute of the node and no other object has changed, whatever
    statuses were passed through on the way. *)
Theorem update_status_last_wins (statuses : list (option NodeStatus.t)) :
  forall (h : gmap loc object) (self : loc) (n : Node.t),
    h !! self = Some (NodeObj n) ->
    update_status_all statuses self h =
      Ok (tt, <[self := NodeObj (Node.set_status
                                   (last_given statuses (Node.status n)) n)]> h).
Proof.
  induction statuses as [ | status rest IH]; intros h self n Hn.
  - unfold last_given. cbn [update_status_all fold_left].
    rewrite set_status_same. now rewrite (insert_id h self (NodeObj n) Hn).
  - cbn [update_status_all]. destruct status as [v | ].
    + rewrite (bind_ok (update_status self (Some v)) _ h tt
                 (<[self := NodeObj (Node.set_status v n)]> h)
                 (modify_node_at h self n (Node.set_status v) Hn)).
      rewrite (IH _ self (Node.set_status v n)) by apply lookup_insert_eq.
      rewrite insert_insert_eq. reflexivity.
    + rewrite (bind_ok (update_status self None) _ h tt h eq_refl).
      now apply IH.
Qed.

Lemma update_status_last_wins_witness :
  sample_store !! 3%positive = Some (NodeObj sample_node) /\
  update_status_all [Some NodeStatus.PENDING; Some NodeStatus.RUNNING; None]
    3%positive sample_store =
    Ok (tt, <[3%positive := NodeObj (Node.set_status NodeStatus.RUNNING sample_node)]>
              sample_store).
Proof.
  assert (H : sample_store !! 3%positive = Some (NodeObj sample_node)) by reflexivity.
  split; [exact H | ].
  exact (update_status_last_wins
           [Some NodeStatus.PENDING; Some NodeStatus.RUNNING; None]
           sample_store 3%positive sample_node H).
Defined.
